(** * typescript-decode: decoder combinators over untyped JavaScript values

    A shallow embedding of [src/index.ts].  A decoder is a function from a
    JavaScript value to a result, paired with its [expectation] text; a
    [throw] is the second alternative of the result, and a [try]/[catch]
    is a case analysis on it.

    What lodash and the JavaScript engine do to a value is written out in
    the first part of the file ([Module JS], [Module Lodash]); the second
    part follows [src/index.ts] declaration by declaration; the theorems
    come last. *)

From Stdlib Require Import String Ascii List ZArith Bool Lia DecimalString.
Import ListNotations.

Local Open Scope list_scope.
Local Open Scope string_scope.
Local Set Warnings "-register-all".

(** ** JavaScript values *)

(** Numbers.  The decoders never compute with a number: they classify it
    ([_.isNumber], [_.defaultTo]) and print it.  The model keeps the three
    special values and the integers; a fraction would add a printing
    routine and nothing else.  An integer of 22 digits or more prints in
    exponent form, which is left to the host. *)
Inductive number :=
| NaN
| Infinity (negative : bool)
| Int (z : Z).

(** The values a decoder can be handed, can return, or can see thrown.
    An object literal or a parsed JSON object is a [VObject]: its own
    enumerable properties in the order [Object.keys] lists them, its
    prototype [Object.prototype].  A function is opaque: its source text
    (what [Function.prototype.toString] shows) and its own properties.
    [VDecodeError] is an instance of the library's class [DecodeError];
    [VNativeError] one of the engine's own errors, such as a [TypeError].
    [VCreated] is an object whose prototype is not [Object.prototype]: an
    object or [null] put there by [Object.create] or by an assignment to
    [__proto__].  Arrays have no holes; wrapper objects
    ([new String("x")]), symbols, read-only properties and accessors of
    the program's own are outside the model. *)
Inductive value :=
| VUndefined
| VNull
| VBool (b : bool)
| VNumber (n : number)
| VString (s : string)
| VArray (elems : list value)
| VObject (props : list (string * value))
| VDate (time : Z)
| VFunction (source : string) (props : list (string * value))
| VDecodeError (plain_message : string) (inner_error : value)
| VNativeError (name message : string)
| VCreated (prototype : value) (props : list (string * value)).

(** An evaluation either returns or throws; anything can be thrown. *)
Inductive outcome (A : Type) :=
| Return (a : A)
| Throw (e : value).

Arguments Return {A} a.
Arguments Throw {A} e.

Definition bind {A B : Type} (c : outcome A) (k : A -> outcome B) : outcome B :=
  match c with
  | Return a => k a
  | Throw e => Throw e
  end.

(** [try c catch (e) { handler e }] *)
Definition try_catch {A : Type} (c : outcome A) (handler : value -> outcome A)
  : outcome A :=
  match c with
  | Return a => Return a
  | Throw e => handler e
  end.

Declare Scope outcome_scope.
Delimit Scope outcome_scope with outcome.
Notation "x <- c ;; k" := (bind c (fun x => k))
  (at level 61, c at next level, right associativity) : outcome_scope.
Local Open Scope outcome_scope.

(** What the model takes from its surroundings: the texts that the
    engine chooses, what a function does when it is called, and the two
    regular-expression routines by which lodash reads a string as a deep
    property path ("a.b", "a[0]").  Their definitions belong to the
    engine, to the program that made the function and to lodash's source,
    not to this repository. *)
Class Host := {
  (** [Date.prototype.toString] *)
  dateToString : Z -> string;
  (** [Number.prototype.toString] of an integer of 22 digits or more *)
  exponentText : Z -> string;
  (** the message of the [TypeError] for a property read on [null] or
      [undefined] *)
  cannotRead : string -> value -> string;
  (** the message of the [TypeError] for an object that has no text *)
  cannotConvert : string;
  (** [f.call(thisValue)] for a function [f] *)
  call : value -> value -> outcome value;
  (** the text of an object whose prototype was replaced, which goes
      through the methods of its prototype chain *)
  createdToString : value -> outcome string;
  (** [reIsDeepProp.test] *)
  reIsDeepProp : string -> bool;
  (** [stringToPath] *)
  stringToPath : string -> list string
}.

Module JS.

Definition isNullish (v : value) : bool :=
  match v with
  | VUndefined | VNull => true
  | _ => false
  end.

(** [typeof v] *)
Definition typeof (v : value) : string :=
  match v with
  | VUndefined => "undefined"
  | VBool _ => "boolean"
  | VNumber _ => "number"
  | VString _ => "string"
  | VFunction _ _ => "function"
  | VNull | VArray _ | VObject _ | VDate _
  | VDecodeError _ _ | VNativeError _ _ | VCreated _ _ => "object"
  end.

Definition natToString (n : nat) : string :=
  NilZero.string_of_uint (Nat.to_uint n).

Fixpoint indexed (i : nat) (l : list value) : list (string * value) :=
  match l with
  | [] => []
  | x :: rest => (natToString i, x) :: indexed (S i) rest
  end.

Fixpoint characters (s : string) : list value :=
  match s with
  | EmptyString => []
  | String c rest => VString (String c EmptyString) :: characters rest
  end.

Definition lengthOf (l : list value) : value :=
  VNumber (Int (Z.of_nat (List.length l))).

(** The own properties of a value (of its wrapper object, for a string).
    The engine's own [stack] of an error is left out. *)
Definition ownProperties (v : value) : list (string * value) :=
  match v with
  | VObject props => props
  | VArray elems => indexed 0 elems ++ [("length", lengthOf elems)]
  | VString s =>
      indexed 0 (characters s) ++ [("length", lengthOf (characters s))]
  | VFunction _ props => props
  | VDecodeError plain_message inner_error =>
      [("message", VString ("Decode Failure: " ++ plain_message));
       ("plain_message", VString plain_message);
       ("inner_error", inner_error)]
  | VNativeError _ message => [("message", VString message)]
  | VCreated _ props => props
  | VUndefined | VNull | VBool _ | VNumber _ | VDate _ => []
  end.

Definition native (name : string) (arity : Z) : string * value :=
  (name, VFunction ("function " ++ name ++ "() { [native code] }")
           [("length", VNumber (Int arity)); ("name", VString name)]).

(** The members of [Object.prototype], the end of every prototype chain.
    The nearer prototypes ([Array.prototype], [Date.prototype], ...) are
    not listed: no decoder reads an inherited property. *)
Definition ObjectPrototype : list (string * value) :=
  [ ("constructor",
     VFunction "function Object() { [native code] }"
       [("length", VNumber (Int 1)); ("name", VString "Object")]);
    native "hasOwnProperty" 1;
    native "isPrototypeOf" 1;
    native "propertyIsEnumerable" 1;
    native "toLocaleString" 0;
    native "toString" 0;
    native "valueOf" 0 ].

(** The properties along the prototype chain, nearest first. *)
Fixpoint inheritedProperties (v : value) : list (string * value) :=
  match v with
  | VUndefined | VNull => []
  | VCreated prototype _ =>
      ownProperties prototype ++ inheritedProperties prototype
  | _ => ObjectPrototype
  end.

Fixpoint lookup {A : Type} (key : string) (props : list (string * A))
  : option A :=
  match props with
  | [] => None
  | (k, x) :: rest => if String.eqb k key then Some x else lookup key rest
  end.

Definition isSome {A : Type} (o : option A) : bool :=
  match o with
  | Some _ => true
  | None => false
  end.

(** [Object.prototype.hasOwnProperty.call(v, key)] *)
Definition hasOwnProperty (v : value) (key : string) : bool :=
  isSome (lookup key (ownProperties v)).

(** [key in Object(v)]: an own or an inherited property *)
Definition inOperator (key : string) (v : value) : bool :=
  hasOwnProperty v key || isSome (lookup key (inheritedProperties v)).

(** The value of [v[key]] for a [v] that is neither [null] nor
    [undefined]. *)
Definition get (v : value) (key : string) : value :=
  match lookup key (ownProperties v) with
  | Some x => x
  | None =>
      match lookup key (inheritedProperties v) with
      | Some x => x
      | None => VUndefined
      end
  end.

(** [Object.keys(o)] of an object given by its property list *)
Definition keys {A : Type} (props : list (string * A)) : list string :=
  map fst props.

(** The own properties after [key] is set to [x] as an own property: the
    property keeps its place when it is there, and comes last when it is
    new. *)
Fixpoint assign {A : Type} (props : list (string * A)) (key : string) (x : A)
  : list (string * A) :=
  match props with
  | [] => [(key, x)]
  | (k, y) :: rest =>
      if String.eqb k key then (k, x) :: rest else (k, y) :: assign rest key x
  end.

(** An object in the making, as [result] is in [object] and in
    [dictionary]: it starts as [{}], with the prototype
    [Object.prototype] ([None]) and no property. *)
Record building := {
  prototypeOf : option value;
  properties : list (string * value)
}.

Definition emptyObject : building :=
  {| prototypeOf := None; properties := [] |}.

Definition finished (result : building) : value :=
  match prototypeOf result with
  | None => VObject (properties result)
  | Some prototype => VCreated prototype (properties result)
  end.

(** A prototype is an object or [null]. *)
Definition isObjectOrNull (v : value) : bool :=
  match v with
  | VUndefined | VBool _ | VNumber _ | VString _ => false
  | _ => true
  end.

(** Whether a property [__proto__] looked up from [prototype] on is the
    accessor of [Object.prototype]: the chain reaches [Object.prototype]
    and no object on the way has a property of that name. *)
Fixpoint findsProtoSetter (prototype : value) : bool :=
  match prototype with
  | VUndefined | VNull => false
  | VCreated prototype' props =>
      negb (isSome (lookup "__proto__" props)) && findsProtoSetter prototype'
  | _ => negb (isSome (lookup "__proto__" (ownProperties prototype)))
  end.

(** [result[key] = x].  An own property is written, a new one is made;
    but the name [__proto__], when [result] has no such property and
    inherits the accessor of [Object.prototype], goes to its setter, which
    replaces the prototype by an object or [null] and ignores any other
    value.  Every other inherited property is taken for a writable data
    property, as those of [Object.prototype] are; the read-only [name]
    and [length] of a function that was made the prototype are not told
    apart. *)
Definition setProperty (result : building) (key : string) (x : value)
  : building :=
  let setter :=
    String.eqb key "__proto__"
    && negb (isSome (lookup key (properties result)))
    && match prototypeOf result with
       | None => true
       | Some prototype => findsProtoSetter prototype
       end in
  if setter
  then if isObjectOrNull x
       then {| prototypeOf := Some x; properties := properties result |}
       else result
  else {| prototypeOf := prototypeOf result;
          properties := assign (properties result) key x |}.

(** [a || b] picks [b] when [a] is one of the falsy values. *)
Definition truthy (v : value) : bool :=
  match v with
  | VUndefined | VNull | VBool false | VNumber NaN | VString EmptyString => false
  | VNumber (Int z) => negb (Z.eqb z 0)
  | _ => true
  end.

Definition or (a b : value) : value := if truthy a then a else b.

Section WithHost.
Context {host : Host}.

(** [v[key]]: a [TypeError] on [null] and [undefined]. *)
Definition getProp (v : value) (key : string) : outcome value :=
  if isNullish v
  then Throw (VNativeError "TypeError" (cannotRead key v))
  else Return (get v key).

(** [Number.prototype.toString]: the digits of an integer below
    [10^21], the exponent form from there on. *)
Definition numberToString (n : number) : string :=
  match n with
  | NaN => "NaN"
  | Infinity false => "Infinity"
  | Infinity true => "-Infinity"
  | Int z =>
      if (Z.abs z <? 10 ^ 21)%Z
      then NilZero.string_of_int (Z.to_int z)
      else exponentText z
  end.

(** The text of a value that is no object. *)
Definition primitiveToString (v : value) : string :=
  match v with
  | VUndefined => "undefined"
  | VNull => "null"
  | VBool true => "true"
  | VBool false => "false"
  | VNumber n => numberToString n
  | VString s => s
  | _ => EmptyString
  end.

(** One step of [OrdinaryToPrimitive]: the method is called when it is a
    function, and its result counts when it is no object. *)
Definition methodText (method thisValue : value) : outcome (option string) :=
  match method with
  | VFunction _ _ =>
      r <- call method thisValue ;;
      if isObjectOrNull r && negb (isNullish r) then Return None
      else Return (Some (primitiveToString r))
  | _ => Return None
  end.

(** The text of an object with the prototype [Object.prototype] or
    [Function.prototype], whose own [toString] gives [builtIn]: an own
    property [toString] takes its place, then an own [valueOf] that of
    [Object.prototype.valueOf], which returns the object; when neither
    gives a text there is a [TypeError]. *)
Definition ordinaryToString (thisValue : value)
    (props : list (string * value)) (builtIn : string) : outcome string :=
  match lookup "toString" props with
  | None => Return builtIn
  | Some toString =>
      first <- methodText toString thisValue ;;
      match first with
      | Some text => Return text
      | None =>
          match lookup "valueOf" props with
          | None => Throw (VNativeError "TypeError" cannotConvert)
          | Some valueOf =>
              second <- methodText valueOf thisValue ;;
              match second with
              | Some text => Return text
              | None => Throw (VNativeError "TypeError" cannotConvert)
              end
          end
      end
  end.

(** The text a template literal puts for [${v}]: [ToString], which for an
    object goes through [ToPrimitive].  An array prints through
    [Array.prototype.join], where [null] and [undefined] give the empty
    text, an error through [Error.prototype.toString]; [DecodeError]
    keeps the name [Error]. *)
Fixpoint ToString (v : value) : outcome string :=
  match v with
  | VUndefined | VNull | VBool _ | VNumber _ | VString _ =>
      Return (primitiveToString v)
  | VArray elems =>
      texts <-
        (fix each (l : list value) : outcome (list string) :=
           match l with
           | [] => Return []
           | x :: rest =>
               text <- (if isNullish x then Return EmptyString
                        else ToString x) ;;
               texts <- each rest ;;
               Return (text :: texts)
           end) elems ;;
      Return (String.concat "," texts)
  | VObject props => ordinaryToString v props "[object Object]"
  | VFunction source props => ordinaryToString v props source
  | VDate time => Return (dateToString time)
  | VDecodeError plain_message _ =>
      Return ("Error: Decode Failure: " ++ plain_message)
  | VNativeError name EmptyString => Return name
  | VNativeError name message => Return (name ++ ": " ++ message)
  | VCreated _ _ => createdToString v
  end.

End WithHost.

End JS.

(** ** The lodash functions the library calls *)

Module Lodash.
Import JS.

Definition isNull (v : value) : bool :=
  match v with VNull => true | _ => false end.

Definition isUndefined (v : value) : bool :=
  match v with VUndefined => true | _ => false end.

(** [_.isNil]: [null] or [undefined] *)
Definition isNil (v : value) : bool := isNullish v.

Definition isString (v : value) : bool :=
  match v with VString _ => true | _ => false end.

(** [_.isNumber]: [NaN] and the infinities are numbers too. *)
Definition isNumber (v : value) : bool :=
  match v with VNumber _ => true | _ => false end.

Definition isBoolean (v : value) : bool :=
  match v with VBool _ => true | _ => false end.


Definition isArray (v : value) : bool :=
  match v with VArray _ => true | _ => false end.

(** [_.isObject]: not [null], and [typeof] is ["object"] or
    ["function"]. *)
Definition isObject (v : value) : bool :=
  negb (isNull v)
  && (String.eqb (typeof v) "object" || String.eqb (typeof v) "function").

(** [Function.prototype.toString] of [Object], which no function of a
    program can have for its source. *)
Definition objectCtorString : string := "function Object() { [native code] }".

(** [_.isPlainObject]: made by an object literal, by [Object] or with a
    [null] prototype; arrays, dates, functions and class instances are
    not.  For another prototype lodash asks whether its own [constructor]
    is [Object]. *)
Definition isPlainObject (v : value) : bool :=
  match v with
  | VObject _ => true
  | VCreated VNull _ => true
  | VCreated prototype _ =>
      match lookup "constructor" (ownProperties prototype) with
      | Some (VFunction source _) => String.eqb source objectCtorString
      | _ => false
      end
  | _ => false
  end.

(** [_.defaultTo(v, defaultValue)]: the default replaces [NaN], [null]
    and [undefined]. *)
Definition defaultTo (v defaultValue : value) : value :=
  match v with
  | VUndefined | VNull | VNumber NaN => defaultValue
  | _ => v
  end.

(** [_.includes(options, s)] for an array of strings and a string *)
Definition includes (options : list string) (s : string) : bool :=
  existsb (String.eqb s) options.

(** [_.map(array, f)]: the elements in order; the first throw ends it.
    (lodash also passes the index and the array; a decoder takes the
    first argument only.) *)
Fixpoint map (elems : list value) (f : value -> outcome value)
  : outcome (list value) :=
  match elems with
  | [] => Return []
  | x :: rest =>
      y <- f x ;;
      ys <- map rest f ;;
      Return (y :: ys)
  end.

Definition isWordChar (c : ascii) : bool :=
  let n := nat_of_ascii c in
  (((48 <=? n) && (n <=? 57)) || ((65 <=? n) && (n <=? 90))
   || ((97 <=? n) && (n <=? 122)) || (n =? 95))%nat.

(** [reIsPlainProp.test(s)], for [/^\w*$/] *)
Fixpoint reIsPlainProp (s : string) : bool :=
  match s with
  | EmptyString => true
  | String c rest => isWordChar c && reIsPlainProp rest
  end.

Section WithHost.
Context {host : Host}.

(** [baseHas]: an own property *)
Definition baseHas (object : value) (key : string) : bool :=
  negb (isNil object) && hasOwnProperty object key.

(** [isKey(path, object)] for a string: a plain name, or a string
    without the deep-path syntax, or a property of the object. *)
Definition isKey (path : string) (object : value) : bool :=
  reIsPlainProp path || negb (reIsDeepProp path)
  || (negb (isNil object) && inOperator path object).

Definition castPath (path : string) (object : value) : list string :=
  if isKey path object then [path] else stringToPath path.

(** [hasPath(object, path, baseHas)]: every key of the path is an own
    property of the object reached so far.  lodash's last resort, an
    index below the [length] of an array, finds nothing new in an
    array without holes. *)
Fixpoint hasPath (object : value) (path : list string) : bool :=
  match path with
  | [] => false
  | key :: rest =>
      baseHas object key
      && match rest with
         | [] => true
         | _ :: _ => hasPath (get object key) rest
         end
  end.

(** [_.has(object, path)] for a string [path] *)
Definition has (object : value) (path : string) : bool :=
  negb (isNil object) && hasPath object (castPath path object).

End WithHost.

End Lodash.

(** ** src/index.ts

    The module has the name under which the tests import the library
    ([import * as Decode from '../src']). *)

Module Decode.
Import JS.

(** [new DecodeError(message, inner_error = null)]: the default stands in
    for a missing or [undefined] second argument.  The object's [message]
    is ["Decode Failure: " + message]; see [JS.ownProperties]. *)
Definition DecodeError (message : string) (inner_error : value) : value :=
  VDecodeError message
    (match inner_error with
     | VUndefined => VNull
     | _ => inner_error
     end).

(** [e.message], [e.plain_message] and [e.inner_error] of a thrown [e] *)
Definition message (e : value) : value := get e "message".
Definition plain_message (e : value) : value := get e "plain_message".
Definition inner_error (e : value) : value := get e "inner_error".

(** [interface Decoder<T>]: a function with an [expectation] property.
    [hardcoded] sets the property to [null], here [None]. *)
Record Decoder := {
  decode :> value -> outcome value;
  expectation : option string
}.

(** [${decoder.expectation}] *)
Definition expected (decoder : Decoder) : string :=
  match expectation decoder with
  | Some text => text
  | None => "null"
  end.

Section Decoders.
Context {host : Host}.

(** [`[${obj}]`] is reached with a string or a number, whose text is
    [primitiveToString]. *)
Definition actualValueDescription (obj : value) : string :=
  if Lodash.isNull obj then "null"
  else if Lodash.isUndefined obj then "undefined"
  else if Lodash.isString obj then "[" ++ primitiveToString obj ++ "]"
  else if Lodash.isNumber obj then "[" ++ primitiveToString obj ++ "]"
  else if Lodash.isPlainObject obj then
    "an object with the properties ["
      ++ String.concat ", " (keys (ownProperties obj)) ++ "]"
  else typeof obj.

Definition fail (message : string) : value :=
  DecodeError message VUndefined.

Definition hardcoded (value : value) : Decoder :=
  {| decode := fun _ => Return value;
     expectation := None |}.

Definition nullable (decoder : Decoder) : Decoder :=
  let expectation := "be null or " ++ expected decoder in
  {| decode := fun obj =>
       if Lodash.isNull obj then Return VNull
       else
         try_catch (decode decoder obj) (fun e =>
           m <- getProp e "plain_message" ;;
           text <- ToString (or m (VString EmptyString)) ;;
           Throw (DecodeError
                    ("Expected the value to " ++ expectation ++ " but got "
                       ++ actualValueDescription obj ++ ". " ++ text)
                    e));
     expectation := Some expectation |}.

Definition optional (path : string) (decoder : Decoder) : Decoder :=
  let expectation := expected decoder ++ " optionally at [" ++ path ++ "]" in
  {| decode := fun obj =>
       if negb (Lodash.has obj path) then Return VNull
       else
         value <- getProp obj path ;;
         if Lodash.isUndefined value then Return VNull
         else decode (nullable decoder) value;
     expectation := Some expectation |}.

Definition required (path : string) (decoder : Decoder) : Decoder :=
  let expectation := expected decoder ++ " at [" ++ path ++ "]" in
  {| decode := fun obj =>
       if negb (Lodash.has obj path)
       then Throw (DecodeError
                     ("Expected the value at [" ++ path ++ "] to "
                        ++ expected decoder ++ " but there was none.")
                     VUndefined)
       else
         try_catch (value <- getProp obj path ;; decode decoder value)
           (fun e =>
              m <- getProp e "plain_message" ;;
              text <- ToString (or m (VString EmptyString)) ;;
              Throw (DecodeError
                       ("Expected the value at [" ++ path ++ "] to "
                          ++ expected decoder ++ ". " ++ text)
                       e));
     expectation := Some expectation |}.

Definition withDefault (default_value : value) (decoder : Decoder) : Decoder :=
  {| decode := fun obj =>
       r <- decode decoder obj ;;
       Return (Lodash.defaultTo r default_value);
     expectation := expectation decoder |}.

(** [str], [date], [bool], [number] and [anyObject] differ in the test
    and in the text only. *)
Definition primitive (test : value -> bool) (expectation : string) : Decoder :=
  {| decode := fun obj =>
       if negb (test obj)
       then Throw (DecodeError
                     ("Expected to " ++ expectation ++ " but got "
                        ++ actualValueDescription obj ++ ".")
                     VUndefined)
       else Return obj;
     expectation := Some expectation |}.

Definition str : Decoder := primitive Lodash.isString "be a string".
Definition bool : Decoder := primitive Lodash.isBoolean "be a boolean".
Definition number : Decoder := primitive Lodash.isNumber "be a number".
Definition anyObject : Decoder := primitive Lodash.isObject "be an object".

Definition array (decoder : Decoder) : Decoder :=
  let expectation :=
    "be an array where each element should " ++ expected decoder in
  {| decode := fun obj =>
       match obj with
       | VArray elems =>
           result <- Lodash.map elems (decode decoder) ;;
           Return (VArray result)
       | _ =>
           Throw (DecodeError
                    ("Expected to " ++ expectation ++ " but got "
                       ++ actualValueDescription obj ++ ".")
                    VUndefined)
       end;
     expectation := Some expectation |}.

(** How the [try] block of [dictionary] and of [object] ends: with the
    [result], or in the [catch] with the [prop_name] of the moment and
    what was thrown. *)
Inductive loop :=
  | Done (result : building)
  | Caught (prop_name : string) (e : value).

(** The [for] loop of [dictionary]'s [try] block, from the keys still to
    visit and the [result] built so far.  Only the call of the decoder
    can throw; [prop_name] then names the key it was called for. *)
Fixpoint dictionaryLoop (decoder : Decoder) (obj : value)
    (rest : list string) (result : building) : loop :=
  match rest with
  | [] => Done result
  | prop_name :: rest' =>
      match decoder (get obj prop_name) with
      | Return x =>
          dictionaryLoop decoder obj rest' (setProperty result prop_name x)
      | Throw e => Caught prop_name e
      end
  end.

Definition dictionary (decoder : Decoder) : Decoder :=
  let expectation :=
    "be a dictionary object where each value should " ++ expected decoder in
  {| decode := fun obj =>
       if negb (Lodash.isPlainObject obj)
       then Throw (DecodeError
                     ("Expected the value to " ++ expectation ++ " but got "
                        ++ actualValueDescription obj ++ ".")
                     VUndefined)
       else
         match dictionaryLoop decoder obj (keys (ownProperties obj))
                 emptyObject with
         | Done result => Return (finished result)
         | Caught prop_name e =>
             m <- getProp e "plain_message" ;;
             text <- ToString (or m (VString EmptyString)) ;;
             Throw (DecodeError
                      ("Expected the value with the key [" ++ prop_name
                         ++ "] to " ++ expected decoder ++ ". " ++ text)
                      VUndefined)
         end;
     expectation := Some expectation |}.

(** [type ObjectDecoder<T>]: a decoder for each property of [T], an
    object given by its property list, which has the fields in the order
    of [Object.keys(props)]: the names that are array indices first, in
    ascending order, then the other names in the order of the
    declaration. *)
Definition ObjectDecoder := list (string * Decoder).

(** [props[prop_name]] in [object].  The name comes from the keys of
    [props], so the property is there; calling or reading a missing one
    would be a [TypeError]. *)
Definition property (props : ObjectDecoder) (prop_name : string)
  : outcome Decoder :=
  match lookup prop_name props with
  | Some decoder => Return decoder
  | None =>
      Throw (VNativeError "TypeError" (cannotRead "expectation" VUndefined))
  end.

(** The [for] loop of [object]'s [try] block. *)
Fixpoint objectLoop (props : ObjectDecoder) (obj : value)
    (rest : list string) (result : building) : loop :=
  match rest with
  | [] => Done result
  | prop_name :: rest' =>
      match (decoder <- property props prop_name ;; decoder obj) with
      | Return x =>
          objectLoop props obj rest' (setProperty result prop_name x)
      | Throw e => Caught prop_name e
      end
  end.

Definition object (props : ObjectDecoder) : Decoder :=
  let expectation :=
    "be an object with the properties ["
      ++ String.concat ", " (keys props) ++ "]" in
  {| decode := fun obj =>
       match objectLoop props obj (keys props) emptyObject with
       | Done result => Return (finished result)
       | Caught prop_name e =>
           i <- getProp e "inner_error" ;;
           inner_error <-
             (if Lodash.isNil i then getProp e "plain_message"
              else getProp i "plain_message") ;;
           failing <- property props prop_name ;;
           text <- ToString inner_error ;;
           Throw (DecodeError
                    ("Expected the value to " ++ expected failing ++ ". "
                       ++ text)
                    VUndefined)
       end;
     expectation := Some expectation |}.

Definition enumeration (coerce : string -> outcome value)
    (options : list string) : Decoder :=
  let expectation := "to be one of [" ++ String.concat ", " options ++ "]" in
  {| decode := fun obj =>
       match obj with
       | VString s =>
           if negb (Lodash.includes options s)
           then text <- ToString obj ;;
                Throw (DecodeError
                         (expectation ++ " but got [" ++ text ++ "]")
                         VUndefined)
           else coerce s
       | _ =>
           text <- ToString obj ;;
           Throw (DecodeError
                    (expectation ++ " but got [" ++ text ++ "]")
                    VUndefined)
       end;
     expectation := Some expectation |}.

(** The wrapped function is the caller's: it returns or throws what it
    likes. *)
Definition custom (decoder : value -> outcome value) (expectation : string)
  : Decoder :=
  {| decode := fun obj => decoder obj;
     expectation := Some expectation |}.


Definition withoutValidation : Decoder :=
  {| decode := fun obj => Return obj;
     expectation := Some "be any value" |}.

End Decoders.

End Decode.

(** A decoder is called like the function it is: [decoder obj]. *)
Coercion Decode.decode : Decode.Decoder >-> Funclass.

(** ** Definitions for the statements *)

Import JS.

(** A host for the closed examples.  They use plain property names,
    print no date and no number of 22 digits, call no function and print
    no object with a replaced prototype; the two messages are V8's, and a
    path with a dot is split at its dots. *)
Fixpoint splitAtDots (word rest : string) : list string :=
  match rest with
  | EmptyString => [word]
  | String "." rest' => word :: splitAtDots EmptyString rest'
  | String c rest' => splitAtDots (word ++ String c EmptyString) rest'
  end.

Fixpoint hasDotOrBracket (s : string) : bool :=
  match s with
  | EmptyString => false
  | String c rest =>
      Ascii.eqb c "." || Ascii.eqb c "[" || hasDotOrBracket rest
  end.

Definition v8 : Host := {|
  dateToString := fun _ => "Invalid Date";
  exponentText := fun _ => "1e+21";
  cannotRead := fun key v =>
    "Cannot read properties of "
      ++ (if Lodash.isNull v then "null" else "undefined")
      ++ " (reading '" ++ key ++ "')";
  cannotConvert := "Cannot convert object to primitive value";
  call := fun _ _ => Return VUndefined;
  createdToString := fun _ => Return "[object Object]";
  reIsDeepProp := hasDotOrBracket;
  stringToPath := splitAtDots EmptyString
|}.

(** A surrounding in which the functions throw when they are called: a
    [DecodeError] with an [inner_error]. *)
Definition throwing : Host := {|
  dateToString := dateToString (Host := v8);
  exponentText := exponentText (Host := v8);
  cannotRead := cannotRead (Host := v8);
  cannotConvert := cannotConvert (Host := v8);
  call := fun _ _ =>
    Throw (VDecodeError "thrown by toString" (VDecodeError "cause" VNull));
  createdToString := createdToString (Host := v8);
  reIsDeepProp := reIsDeepProp (Host := v8);
  stringToPath := stringToPath (Host := v8)
|}.

(** [{plain_message: {toString: f}}] *)
Definition messageWithMethod : value :=
  VObject [("plain_message", VObject [("toString", VFunction "f" [])])].

Definition isDecodeError (e : value) : bool :=
  match e with
  | VDecodeError _ _ => true
  | _ => false
  end.

(** [_.isNumber(v) && v !== v] *)
Definition isNaN (v : value) : bool :=
  match v with
  | VNumber NaN => true
  | _ => false
  end.

(** The values that are no objects: [null], [undefined], and the
    primitive strings, numbers and booleans. *)
Definition isPrimitive (v : value) : bool :=
  match v with
  | VUndefined | VNull | VBool _ | VNumber _ | VString _ => true
  | _ => false
  end.

(** The last failure of a chain of [inner_error]s. *)
Fixpoint innermost (e : value) : value :=
  match e with
  | VDecodeError _ inner =>
      if Lodash.isNil inner then e else innermost inner
  | _ => e
  end.

(** What the [catch] of [object] puts after the expectation: the plain
    message of [e.inner_error] when there is one, that of [e] when there
    is none. *)
Definition reported (e : value) : value :=
  if Lodash.isNil (Decode.inner_error e) then Decode.plain_message e
  else Decode.plain_message (Decode.inner_error e).

(** [text] has [part] in it. *)
Definition mentions (text part : string) : Prop :=
  exists before after, text = before ++ part ++ after.

(** A field decoder returns on [obj]. *)
Definition returns (obj : value) (decoder : Decode.Decoder) : Prop :=
  exists r, decoder obj = Return r.

(** *** Output types

    The type [T] of a [Decoder<T>] is read as the set of values of that
    type. *)







(** The parts of a value: the value, and the parts of its own
    properties.  They are what a decoder hands to the decoders inside
    it. *)
Inductive Part : value -> value -> Prop :=
| part_whole v : Part v v
| part_property v k x w :
    In (k, x) (ownProperties v) -> Part x w -> Part v w.

(** A failure as the constructor's type has it: a [DecodeError] whose
    [inner_error] is [null] or again such a failure. *)
Fixpoint isFailure (e : value) : bool :=
  match e with
  | VDecodeError _ inner => Lodash.isNil inner || isFailure inner
  | _ => false
  end.


Section Composition.
Context {host : Host}.

(** An input all of whose parts have a text: [${v}] throws on none. *)
Definition Printable (obj : value) : Prop :=
  forall w, Part obj w -> exists text, ToString w = Return text.


(** *** The claims as the specification words them, for the inputs on
    which the code does something else *)

(** [required]: presence judged over own and inherited properties. *)
Definition required_by_any_property
    (path : string) (decoder : Decode.Decoder) (obj : value) : Prop :=
  (inOperator path obj = false ->
   Decode.required path decoder obj
   = Throw (VDecodeError
              ("Expected the value at [" ++ path ++ "] to "
                 ++ Decode.expected decoder ++ " but there was none.")
              VNull))
  /\ (inOperator path obj = true ->
      (forall r, decoder (get obj path) = Return r ->
                 Decode.required path decoder obj = Return r)
      /\ (forall text inner,
             decoder (get obj path) = Throw (VDecodeError text inner) ->
             Decode.required path decoder obj
             = Throw (VDecodeError
                        ("Expected the value at [" ++ path ++ "] to "
                           ++ Decode.expected decoder ++ ". " ++ text)
                        (VDecodeError text inner)))).

(** [withDefault]: the default replaces an absent or [null] result and
    no other. *)
Definition default_for_nil_only
    (default_value : value) (decoder : Decode.Decoder) (obj : value) : Prop :=
  forall r, decoder obj = Return r ->
            Decode.withDefault default_value decoder obj
            = Return (if Lodash.isNil r then default_value else r).

(** [object]: the message ends with the plain message of the innermost
    failure of the chain. *)
Definition reports_innermost
    (props : Decode.ObjectDecoder) (obj : value) : Prop :=
  forall pre k decoder post e,
    props = (pre ++ (k, decoder) :: post)%list ->
    ~ In k (keys pre) ->
    Forall (fun field => returns obj (snd field)) pre ->
    decoder obj = Throw e ->
    isDecodeError e = true ->
    exists text inner,
      ToString (Decode.plain_message (innermost e)) = Return text
      /\ Decode.object props obj
         = Throw (VDecodeError
                    ("Expected the value to " ++ Decode.expected decoder
                       ++ ". " ++ text)
                    inner).


End Composition.

(** *** The decoders and inputs of the examples *)

Section Examples.
Context {host : Host}.

(** tests/decode_test.ts *)
Definition validObjectDecoder : Decode.Decoder :=
  Decode.object
    [("name", Decode.required "name" Decode.str);
     ("id", Decode.required "id" Decode.number)].

Definition valid_object : value :=
  VObject [("name", VString "tester"); ("id", VNumber (Int 42))].

Definition without_id : value := VObject [("name", VString "tester")].

Definition invalid_id : value :=
  VObject [("name", VString "tester"); ("id", VString "invalid")].

(** A field whose failure has a chain of two inner errors:
    [object({a: required('a', nullable(str))})] on [{a: 5}]. *)
Definition nullableField : Decode.Decoder :=
  Decode.required "a" (Decode.nullable Decode.str).

Definition five : value := VObject [("a", VNumber (Int 5))].

(** [custom(obj => obj.id, 'have an id')] *)
Definition idOf : Decode.Decoder :=
  Decode.custom (fun obj => getProp obj "id") "have an id".

(** [custom(() => { throw null }, 'never return')] *)
Definition throwsNull : Decode.Decoder :=
  Decode.custom (fun _ => Throw VNull) "never return".







End Examples.

(** ** Property lists *)

Lemma lookup_keys {A : Type} (key : string) (props : list (string * A)) :
  In key (keys props) -> exists x, lookup key props = Some x.
Proof.
  induction props as [|[k y] rest IH]; simpl; [tauto|].
  intros [Hk | Hin].
  - subst k. rewrite String.eqb_refl. eauto.
  - destruct (String.eqb k key); eauto.
Qed.

Lemma lookup_In {A : Type} (key : string) (props : list (string * A)) x :
  lookup key props = Some x -> In (key, x) props.
Proof.
  induction props as [|[k y] rest IH]; simpl; [discriminate|].
  destruct (String.eqb k key) eqn:E.
  - apply String.eqb_eq in E. intros [= ->]. subst. now left.
  - intros H. right. now apply IH.
Qed.

Lemma lookup_app_left {A : Type} (key : string) (pre rest : list (string * A)) :
  In key (keys pre) -> lookup key (pre ++ rest) = lookup key pre.
Proof.
  induction pre as [|[k y] pre IH]; simpl; [tauto|].
  intros [Hk | Hin].
  - subst k. now rewrite String.eqb_refl.
  - destruct (String.eqb k key); auto.
Qed.

Lemma lookup_app_right {A : Type} (key : string) (pre rest : list (string * A)) :
  ~ In key (keys pre) -> lookup key (pre ++ rest) = lookup key rest.
Proof.
  induction pre as [|[k y] pre IH]; simpl; [reflexivity|].
  intros H. destruct (String.eqb k key) eqn:E.
  - apply String.eqb_eq in E. tauto.
  - apply IH. tauto.
Qed.

Lemma keys_app {A : Type} (pre rest : list (string * A)) :
  keys (pre ++ rest) = (keys pre ++ keys rest)%list.
Proof. apply map_app. Qed.




(** ** Reading properties *)

Lemma ownProperties_nullish v : isNullish v = true -> ownProperties v = [].
Proof. destruct v; simpl; congruence. Qed.

Lemma hasOwnProperty_not_nullish v key :
  hasOwnProperty v key = true -> isNullish v = false.
Proof.
  unfold hasOwnProperty. destruct (isNullish v) eqn:E; [|reflexivity].
  rewrite (ownProperties_nullish v E). discriminate.
Qed.

Lemma get_missing v key : inOperator key v = false -> get v key = VUndefined.
Proof.
  unfold inOperator, hasOwnProperty, get. intros H.
  apply orb_false_iff in H. destruct H as [Hown Hinh].
  destruct (lookup key (ownProperties v)); [discriminate|].
  destruct (lookup key (inheritedProperties v)); [discriminate|reflexivity].
Qed.

Section Facts.
Context {host : Host}.

(** [`${e.plain_message || ''}`] of a [DecodeError] is its plain
    message: an empty one gives way to the empty string. *)
Lemma plain_message_or_empty text :
  ToString (or (VString text) (VString EmptyString)) = Return text.
Proof. destruct text; reflexivity. Qed.

Lemma getProp_DecodeError_plain_message text inner :
  getProp (VDecodeError text inner) "plain_message" = Return (VString text).
Proof. reflexivity. Qed.


Lemma getProp_get v key :
  isNullish v = false -> getProp v key = Return (get v key).
Proof. unfold getProp. now intros ->. Qed.

Lemma getProp_nullish v key :
  isNullish v = true ->
  getProp v key = Throw (VNativeError "TypeError" (cannotRead key v)).
Proof. unfold getProp. now intros ->. Qed.

(** What is thrown becomes the [inner_error] as it is, unless it is
    [undefined]. *)
Lemma DecodeError_of_thrown text e :
  isNullish e = false -> Decode.DecodeError text e = VDecodeError text e.
Proof. destruct e; try reflexivity. discriminate. Qed.

(** *** [_.has] *)

(** A path that lodash reads as one key is looked up among the own
    properties. *)
Lemma has_key object path :
  Lodash.isKey path object = true ->
  Lodash.has object path = hasOwnProperty object path.
Proof.
  intros Hkey. unfold Lodash.has, Lodash.castPath. rewrite Hkey. simpl.
  unfold Lodash.baseHas, Lodash.isNil.
  destruct (isNullish object) eqn:E; simpl.
  - unfold hasOwnProperty. now rewrite (ownProperties_nullish _ E).
  - now rewrite andb_true_r.
Qed.

Lemma isKey_plain object path :
  Lodash.reIsPlainProp path = true -> Lodash.isKey path object = true.
Proof. unfold Lodash.isKey. now intros ->. Qed.

Lemma isKey_own object path :
  hasOwnProperty object path = true -> Lodash.isKey path object = true.
Proof.
  intros Hown. unfold Lodash.isKey, Lodash.isNil, inOperator.
  rewrite (hasOwnProperty_not_nullish _ _ Hown), Hown. simpl.
  now rewrite !orb_true_r.
Qed.

Lemma has_own object path :
  hasOwnProperty object path = true -> Lodash.has object path = true.
Proof.
  intros Hown. rewrite has_key by now apply isKey_own. exact Hown.
Qed.

(** When [_.has] holds of a path that is no own property, a deep path
    was followed, and the object has no property of that name at all. *)
Lemma has_deep_get object path :
  Lodash.has object path = true ->
  hasOwnProperty object path = false ->
  get object path = VUndefined.
Proof.
  intros Hhas Hown.
  destruct (Lodash.isKey path object) eqn:Hkey.
  - rewrite has_key in Hhas by assumption. congruence.
  - apply get_missing. unfold Lodash.isKey in Hkey.
    apply orb_false_iff in Hkey. destruct Hkey as [_ Hin].
    unfold Lodash.has in Hhas. apply andb_true_iff in Hhas.
    destruct Hhas as [Hnil _]. rewrite Hnil in Hin. exact Hin.
Qed.

Lemma has_not_nullish object path :
  Lodash.has object path = true -> isNullish object = false.
Proof.
  unfold Lodash.has, Lodash.isNil. intros H.
  apply andb_true_iff in H. destruct H as [H _].
  now apply negb_true_iff in H.
Qed.

End Facts.

(** ** The primitive decoders *)

Section Primitives.
Context {host : Host}.

Lemma primitive_pass test expectation obj :
  test obj = true -> Decode.primitive test expectation obj = Return obj.
Proof. simpl. now intros ->. Qed.

(** C9.  The primitive decoders hand a valid input back as it is: [str]
    a string, [number] a number, [bool] a boolean, [anyObject] whatever
    [_.isObject] accepts.  Nothing is coerced: [number] raises on every
    string, a numeric one included. *)
Theorem primitives_pass_through
    (s : string) (n : number) (b : Datatypes.bool) (o : value)
    (object_o : Lodash.isObject o = true) :
  Decode.str (VString s) = Return (VString s)
  /\ Decode.number (VNumber n) = Return (VNumber n)
  /\ Decode.bool (VBool b) = Return (VBool b)
  /\ Decode.anyObject o = Return o
  /\ Decode.number (VString s)
     = Throw (VDecodeError
                ("Expected to be a number but got "
                   ++ Decode.actualValueDescription (VString s) ++ ".")
                VNull)
  /\ Decode.actualValueDescription (VString s) = "[" ++ s ++ "]".
Proof.
  repeat split; try reflexivity.
  now apply primitive_pass.
Qed.

(** C10.  [anyObject] returns every array and every function as it is,
    although its expectation reads "be an object"; it raises on [null],
    [undefined], strings, numbers and booleans, and on nothing else. *)
Theorem anyObject_accepts_arrays_and_functions :
  (forall elems, Decode.anyObject (VArray elems) = Return (VArray elems))
  /\ (forall source props,
         Decode.anyObject (VFunction source props)
         = Return (VFunction source props))
  /\ (forall v,
         Decode.anyObject v
         = if isPrimitive v
           then Throw (VDecodeError
                         ("Expected to be an object but got "
                            ++ Decode.actualValueDescription v ++ ".")
                         VNull)
           else Return v)
  /\ Decode.expectation Decode.anyObject = Some "be an object".
Proof.
  repeat split; try reflexivity.
  intros v. destruct v; reflexivity.
Qed.

End Primitives.

(** ** [nullable], [optional], [required], [withDefault], [dependent] *)

Section Modifiers.
Context {host : Host}.

Lemma nullable_not_null decoder obj :
  obj <> VNull ->
  Decode.nullable decoder obj
  = try_catch (decoder obj) (fun e =>
      m <- getProp e "plain_message" ;;
      text <- ToString (or m (VString EmptyString)) ;;
      Throw (Decode.DecodeError
               ("Expected the value to be null or "
                  ++ Decode.expected decoder ++ " but got "
                  ++ Decode.actualValueDescription obj ++ ". " ++ text)
               e)).
Proof. intros H. destruct obj; try reflexivity. congruence. Qed.

(** C5.  [nullable(d)] returns [null] on [null], whatever [d] is; on
    any other value it returns what [d] returns, and when [d] raises a
    [DecodeError] it raises one whose plain message is "Expected the
    value to be null or <d.expectation> but got <description of the
    value>. <the inner plain message>" and whose [inner_error] is the
    failure of [d].  The [catch] takes whatever [d] throws: for a thrown
    value that is no [DecodeError] the message ends with the text of
    [e.plain_message || '']; what making that text throws comes out as
    it is, and so does the [TypeError] of reading [plain_message] when
    [d] throws [null] or [undefined].
    [nullable(str)(5)] mentions "be null or be a string". *)
Theorem nullable_null_or_decoded (decoder : Decode.Decoder) (obj : value) :
  Decode.nullable decoder VNull = Return VNull
  /\ (forall r,
         obj <> VNull -> decoder obj = Return r ->
         Decode.nullable decoder obj = Return r)
  /\ (forall text inner,
         obj <> VNull -> decoder obj = Throw (VDecodeError text inner) ->
         Decode.nullable decoder obj
         = Throw (VDecodeError
                    ("Expected the value to be null or "
                       ++ Decode.expected decoder ++ " but got "
                       ++ Decode.actualValueDescription obj ++ ". " ++ text)
                    (VDecodeError text inner)))
  /\ (forall e text,
         obj <> VNull -> decoder obj = Throw e ->
         Lodash.isNil e = false ->
         ToString (or (Decode.plain_message e) (VString EmptyString))
         = Return text ->
         Decode.nullable decoder obj
         = Throw (VDecodeError
                    ("Expected the value to be null or "
                       ++ Decode.expected decoder ++ " but got "
                       ++ Decode.actualValueDescription obj ++ ". " ++ text)
                    e))
  /\ (forall e e',
         obj <> VNull -> decoder obj = Throw e ->
         Lodash.isNil e = false ->
         ToString (or (Decode.plain_message e) (VString EmptyString))
         = Throw e' ->
         Decode.nullable decoder obj = Throw e')
  /\ (forall e,
         obj <> VNull -> decoder obj = Throw e ->
         Lodash.isNil e = true ->
         Decode.nullable decoder obj
         = Throw (VNativeError "TypeError" (cannotRead "plain_message" e)))
  /\ (exists text inner,
         Decode.nullable Decode.str (VNumber (Int 5))
         = Throw (VDecodeError text inner)
         /\ mentions text "be null or be a string").
Proof.
  assert (general : forall e text,
             obj <> VNull -> decoder obj = Throw e ->
             Lodash.isNil e = false ->
             ToString (or (Decode.plain_message e) (VString EmptyString))
             = Return text ->
             Decode.nullable decoder obj
             = Throw (VDecodeError
                        ("Expected the value to be null or "
                           ++ Decode.expected decoder ++ " but got "
                           ++ Decode.actualValueDescription obj ++ ". "
                           ++ text)
                        e)).
  { intros e text Hobj He Hnil Htext.
    rewrite nullable_not_null by assumption. rewrite He. unfold try_catch.
    rewrite getProp_get by exact Hnil. unfold bind at 1.
    unfold Decode.plain_message in Htext. rewrite Htext. unfold bind.
    now rewrite DecodeError_of_thrown. }
  split; [reflexivity|]. split; [|split; [|split; [|split; [|split]]]].
  - intros r Hobj Hr. rewrite nullable_not_null by assumption.
    now rewrite Hr.
  - intros text inner Hobj He.
    apply general; try assumption; [reflexivity|].
    apply plain_message_or_empty.
  - exact general.
  - intros e e' Hobj He Hnil Htext.
    rewrite nullable_not_null by assumption. rewrite He. unfold try_catch.
    rewrite getProp_get by exact Hnil. unfold bind at 1.
    unfold Decode.plain_message in Htext. now rewrite Htext.
  - intros e Hobj He Hnil.
    rewrite nullable_not_null by assumption. rewrite He. unfold try_catch.
    now rewrite getProp_nullish by exact Hnil.
  - eexists _, _. split; [reflexivity|].
    exists "Expected the value to ",
           " but got [5]. Expected to be a string but got [5].".
    reflexivity.
Qed.

Lemma optional_unfold path decoder obj :
  Decode.optional path decoder obj
  = if negb (Lodash.has obj path) then Return VNull
    else
      value <- getProp obj path ;;
      if Lodash.isUndefined value then Return VNull
      else Decode.nullable decoder value.
Proof. reflexivity. Qed.

(** C6.  [optional(p, d)] returns [null], whatever [d] is, when [p] is
    no own property of the input and when the property holds
    [undefined]; otherwise it returns what [nullable(d)] makes of the
    value of the property. *)
Theorem optional_absent_or_nullable
    (path : string) (decoder : Decode.Decoder) (obj : value) :
  (hasOwnProperty obj path = false ->
   Decode.optional path decoder obj = Return VNull)
  /\ (get obj path = VUndefined ->
      Decode.optional path decoder obj = Return VNull)
  /\ (hasOwnProperty obj path = true -> get obj path <> VUndefined ->
      Decode.optional path decoder obj
      = Decode.nullable decoder (get obj path)).
Proof.
  assert (Hundefined : get obj path = VUndefined ->
                       Decode.optional path decoder obj = Return VNull).
  { intros Hget. rewrite optional_unfold.
    destruct (Lodash.has obj path) eqn:Hhas; [|reflexivity].
    rewrite getProp_get by now apply has_not_nullish with path.
    simpl. now rewrite Hget. }
  split; [|split].
  - intros Hown.
    destruct (Lodash.has obj path) eqn:Hhas.
    + apply Hundefined. now apply has_deep_get.
    + rewrite optional_unfold. now rewrite Hhas.
  - exact Hundefined.
  - intros Hown Hget. rewrite optional_unfold.
    rewrite has_own by assumption.
    rewrite getProp_get by now apply hasOwnProperty_not_nullish with path.
    simpl negb. cbv iota. simpl bind.
    destruct (get obj path); try reflexivity. congruence.
Qed.

(** C3, amended.  [required(p, d)] judges presence by the own
    properties.  When the input has no own property [p], and lodash reads
    [p] as one key, it raises a [DecodeError] with the plain message
    "Expected the value at [<p>] to <d.expectation> but there was none."
    and no [inner_error].  When the input has an own property [p] it
    calls [d] on the value: it returns what [d] returns, and when [d]
    raises a [DecodeError] it raises "Expected the value at [<p>] to
    <d.expectation>. <the inner plain message>" with the failure of [d]
    as [inner_error]. *)
Theorem required_own_property
    (path : string) (decoder : Decode.Decoder) (obj : value) :
  (hasOwnProperty obj path = false -> Lodash.isKey path obj = true ->
   Decode.required path decoder obj
   = Throw (VDecodeError
              ("Expected the value at [" ++ path ++ "] to "
                 ++ Decode.expected decoder ++ " but there was none.")
              VNull))
  /\ (forall r,
         hasOwnProperty obj path = true ->
         decoder (get obj path) = Return r ->
         Decode.required path decoder obj = Return r)
  /\ (forall text inner,
         hasOwnProperty obj path = true ->
         decoder (get obj path) = Throw (VDecodeError text inner) ->
         Decode.required path decoder obj
         = Throw (VDecodeError
                    ("Expected the value at [" ++ path ++ "] to "
                       ++ Decode.expected decoder ++ ". " ++ text)
                    (VDecodeError text inner))).
Proof.
  split; [|split].
  - intros Hown Hkey. cbn -[Lodash.has].
    rewrite has_key by assumption. now rewrite Hown.
  - intros r Hown Hr. cbn -[Lodash.has].
    rewrite has_own by assumption.
    rewrite getProp_get by now apply hasOwnProperty_not_nullish with path.
    cbn. now rewrite Hr.
  - intros text inner Hown He. cbn -[Lodash.has].
    rewrite has_own by assumption.
    rewrite getProp_get by now apply hasOwnProperty_not_nullish with path.
    cbn -[append]. rewrite He. cbn -[JS.or ToString append].
    rewrite plain_message_or_empty. reflexivity.
Qed.

(** Where [_.has] follows a deep path, [p] itself names no property, and
    [required] calls the decoder on [undefined]. *)
Lemma required_deep_path (path : string) (decoder : Decode.Decoder) obj :
  Lodash.has obj path = true ->
  hasOwnProperty obj path = false ->
  Decode.required path decoder obj
  = try_catch (decoder VUndefined) (fun e =>
      m <- getProp e "plain_message" ;;
      text <- ToString (or m (VString EmptyString)) ;;
      Throw (Decode.DecodeError
               ("Expected the value at [" ++ path ++ "] to "
                  ++ Decode.expected decoder ++ ". " ++ text)
               e)).
Proof.
  intros Hhas Hown. cbn -[Lodash.has JS.or ToString append getProp].
  rewrite Hhas. simpl negb. cbv iota.
  rewrite getProp_get by now apply has_not_nullish with path.
  now rewrite (has_deep_get _ _ Hhas Hown).
Qed.

End Modifiers.

Section Defaults.
Context {host : Host}.

(** C7, amended.  [withDefault(dv, d)] calls [d] on the input.  A
    failure of [d], whatever was thrown, comes out unchanged.  A result
    of [d] is replaced by [dv] exactly when it is [null], [undefined] or
    [NaN]: [_.defaultTo] takes [NaN] for an empty result too.  The
    expectation is that of [d]. *)
Theorem withDefault_replaces_nil_and_NaN
    (default_value : value) (decoder : Decode.Decoder) (obj : value) :
  (forall e,
      decoder obj = Throw e ->
      Decode.withDefault default_value decoder obj = Throw e)
  /\ (forall r,
         decoder obj = Return r ->
         Decode.withDefault default_value decoder obj
         = Return (if Lodash.isNil r || isNaN r then default_value else r))
  /\ Decode.expectation (Decode.withDefault default_value decoder)
     = Decode.expectation decoder.
Proof.
  split; [|split]; [| |reflexivity].
  - intros e He. simpl. now rewrite He.
  - intros r Hr. simpl. rewrite Hr. simpl.
    destruct r as [| | |[]| | | | | | | |]; reflexivity.
Qed.


End Defaults.

(** ** [dictionary] and [object] *)

Section Structures.
Context {host : Host}.




End Structures.

Section Objects.
Context {host : Host}.

(** The loop of [object] stops at the first field whose decoder
    refuses the input. *)
Lemma objectLoop_first_failure props obj e :
  forall pre k decoder post result,
    (forall k', In k' pre ->
                exists d, lookup k' props = Some d /\ returns obj d) ->
    lookup k props = Some decoder ->
    decoder obj = Throw e ->
    Decode.objectLoop props obj (pre ++ k :: post) result
    = Decode.Caught k e.
Proof.
  induction pre as [|k0 pre IH]; intros k decoder post result Hpre Hk He;
    simpl.
  - unfold Decode.property. rewrite Hk. simpl. now rewrite He.
  - destruct (Hpre k0 (or_introl eq_refl)) as [d [Hd [r Hr]]].
    unfold Decode.property. rewrite Hd. simpl. rewrite Hr.
    apply IH with decoder; try assumption.
    intros k' Hin. apply Hpre. now right.
Qed.

(** [object] from its [catch] on. *)
Lemma object_caught
    (pre : Decode.ObjectDecoder) k (decoder : Decode.Decoder)
    (post : Decode.ObjectDecoder) obj e :
  ~ In k (keys pre) ->
  Forall (fun field => returns obj (snd field)) pre ->
  decoder obj = Throw e ->
  Decode.object (pre ++ (k, decoder) :: post)%list obj
  = (i <- getProp e "inner_error" ;;
     inner_error <-
       (if Lodash.isNil i then getProp e "plain_message"
        else getProp i "plain_message") ;;
     text <- ToString inner_error ;;
     Throw (VDecodeError
              ("Expected the value to " ++ Decode.expected decoder ++ ". "
                 ++ text)
              VNull)).
Proof.
  intros first before failing.
  set (props := (pre ++ (k, decoder) :: post)%list).
  assert (Hk : lookup k props = Some decoder).
  { unfold props. rewrite lookup_app_right by assumption. simpl.
    now rewrite String.eqb_refl. }
  assert (Hloop : Decode.objectLoop props obj (keys props) emptyObject
                  = Decode.Caught k e).
  { unfold props at 2. rewrite keys_app. simpl keys.
    apply objectLoop_first_failure with decoder; try assumption.
    intros k' Hin. unfold props. rewrite lookup_app_left by assumption.
    destruct (lookup_keys _ _ Hin) as [d Hd]. exists d. split; [exact Hd|].
    apply lookup_In in Hd. rewrite Forall_forall in before.
    exact (before _ Hd). }
  cbn -[Decode.objectLoop ToString append keys getProp Lodash.isNil].
  fold props. rewrite Hloop. unfold Decode.property. rewrite Hk.
  destruct (getProp e "inner_error") as [i|]; [|reflexivity].
  simpl bind.
  destruct (if Lodash.isNil i then getProp e "plain_message"
            else getProp i "plain_message"); reflexivity.
Qed.

Lemma object_first_failure
    (pre : Decode.ObjectDecoder) k (decoder : Decode.Decoder)
    (post : Decode.ObjectDecoder) obj e (shown : outcome string) :
  ~ In k (keys pre) ->
  Forall (fun field => returns obj (snd field)) pre ->
  decoder obj = Throw e ->
  Lodash.isNil e = false ->
  ToString (reported e) = shown ->
  Decode.object (pre ++ (k, decoder) :: post)%list obj
  = (text <- shown ;;
     Throw (VDecodeError
              ("Expected the value to " ++ Decode.expected decoder ++ ". "
                 ++ text)
              VNull)).
Proof.
  intros first before failing thrown its_text.
  rewrite (object_caught pre k decoder post obj e first before failing).
  rewrite getProp_get by exact thrown. simpl bind.
  unfold reported, Decode.inner_error, Decode.plain_message in its_text.
  destruct (Lodash.isNil (get e "inner_error")) eqn:Hnil.
  - rewrite getProp_get by exact thrown. simpl bind. now rewrite its_text.
  - rewrite getProp_get by exact Hnil. simpl bind. now rewrite its_text.
Qed.

(** C1, amended.  [object] calls the field decoders in the order in
    which [Object.keys(props)] lists the fields, the order of the
    property list.  When the fields before [k] in that order return and
    the decoder of [k] fails, [object] raises a [DecodeError] with a
    [null] [inner_error] whose plain message is "Expected the value to
    <expectation of the decoder of k>. <m>": [m] is the plain message of
    the raised failure when that has no [inner_error], and the plain
    message of its [inner_error], one step down the chain, when it has
    one.  The [catch] takes whatever the decoder throws: for a thrown
    value that is no [DecodeError], [m] is the text of the
    [plain_message] property read in the same way; what making that text
    throws comes out as it is, and so does the [TypeError] of reading
    [inner_error] when the decoder throws [null] or [undefined]. *)
Theorem object_reports_one_step_down
    (pre : Decode.ObjectDecoder) (k : string) (decoder : Decode.Decoder)
    (post : Decode.ObjectDecoder) (obj : value) (e : value)
    (first : ~ In k (keys pre))
    (before : Forall (fun field => returns obj (snd field)) pre)
    (failing : decoder obj = Throw e) :
  (forall text,
      e = VDecodeError text VNull ->
      Decode.object (pre ++ (k, decoder) :: post)%list obj
      = Throw (VDecodeError
                 ("Expected the value to " ++ Decode.expected decoder ++ ". "
                    ++ text)
                 VNull))
  /\ (forall text text' inner',
         e = VDecodeError text (VDecodeError text' inner') ->
         Decode.object (pre ++ (k, decoder) :: post)%list obj
         = Throw (VDecodeError
                    ("Expected the value to " ++ Decode.expected decoder
                       ++ ". " ++ text')
                    VNull))
  /\ (forall text,
         Lodash.isNil e = false ->
         ToString (if Lodash.isNil (Decode.inner_error e)
                   then Decode.plain_message e
                   else Decode.plain_message (Decode.inner_error e))
         = Return text ->
         Decode.object (pre ++ (k, decoder) :: post)%list obj
         = Throw (VDecodeError
                    ("Expected the value to " ++ Decode.expected decoder
                       ++ ". " ++ text)
                    VNull))
  /\ (forall e',
         Lodash.isNil e = false ->
         ToString (if Lodash.isNil (Decode.inner_error e)
                   then Decode.plain_message e
                   else Decode.plain_message (Decode.inner_error e))
         = Throw e' ->
         Decode.object (pre ++ (k, decoder) :: post)%list obj = Throw e')
  /\ (Lodash.isNil e = true ->
      Decode.object (pre ++ (k, decoder) :: post)%list obj
      = Throw (VNativeError "TypeError" (cannotRead "inner_error" e))).
Proof.
  assert (general : forall shown,
             Lodash.isNil e = false ->
             ToString (reported e) = shown ->
             Decode.object (pre ++ (k, decoder) :: post)%list obj
             = (text <- shown ;;
                Throw (VDecodeError
                         ("Expected the value to " ++ Decode.expected decoder
                            ++ ". " ++ text)
                         VNull))).
  { intros shown thrown its_text.
    now apply object_first_failure with e. }
  split; [|split; [|split; [|split]]].
  - intros text ->. now apply (general (Return text)).
  - intros text text' inner' ->. now apply (general (Return text')).
  - intros text thrown its_text. exact (general (Return text) thrown its_text).
  - intros e' thrown its_text. exact (general (Throw e') thrown its_text).
  - intros thrown.
    rewrite (object_caught pre k decoder post obj e first before failing).
    now rewrite getProp_nullish by exact thrown.
Qed.

End Objects.

(** ** The contract of a decoder *)

(** *** Inputs that have a text *)




Section Contract.
Context {host : Host}.









(** *** The combinators *)



Lemma isFailure_not_nullish e : isFailure e = true -> isNullish e = false.
Proof. destruct e; try discriminate. reflexivity. Qed.










Lemma setProperty_data result key x :
  key <> "__proto__" ->
  setProperty result key x
  = {| prototypeOf := prototypeOf result;
       properties := assign (properties result) key x |}.
Proof.
  intros Hkey. unfold setProperty.
  apply String.eqb_neq in Hkey. now rewrite Hkey.
Qed.









End Contract.

(** ** [array] *)

Section Arrays.
Context {host : Host}.

Lemma map_all_return (f : value -> outcome value) elems decoded :
  Forall2 (fun x y => f x = Return y) elems decoded ->
  Lodash.map elems f = Return decoded.
Proof.
  induction 1 as [|x y elems decoded Hx _ IH]; simpl; [reflexivity|].
  rewrite Hx. simpl. now rewrite IH.
Qed.

Lemma map_first_failure (f : value -> outcome value) e x post :
  forall pre,
    Forall (fun x' => exists y, f x' = Return y) pre ->
    f x = Throw e ->
    Lodash.map (pre ++ x :: post) f = Throw e.
Proof.
  induction pre as [|x' pre IH]; intros Hpre Hx; simpl.
  - now rewrite Hx.
  - inversion Hpre as [|? ? [y Hy] Hrest]; subst. rewrite Hy. simpl.
    now rewrite IH.
Qed.

(** X1.  When the decoder returns on every element, [array] returns the
    array of the results, in the order of the elements and of the same
    length. *)
Theorem array_returns_decoded_elements
    (decoder : Decode.Decoder) (elems decoded : list value)
    (each : Forall2 (fun x y => decoder x = Return y) elems decoded) :
  Decode.array decoder (VArray elems) = Return (VArray decoded)
  /\ List.length decoded = List.length elems.
Proof.
  split.
  - cbn -[Lodash.map]. now rewrite (map_all_return _ _ _ each).
  - symmetry. exact (Forall2_length each).
Qed.

(** X2.  When the decoder returns on the elements before [x] and throws
    on [x], [array] throws what the decoder threw, as it is: no new
    [DecodeError], no index. *)
Theorem array_first_failure_unwrapped
    (decoder : Decode.Decoder) (pre : list value) (x : value)
    (post : list value) (e : value)
    (before : Forall (fun x' => returns x' decoder) pre)
    (failing : decoder x = Throw e) :
  Decode.array decoder (VArray (pre ++ x :: post)) = Throw e.
Proof.
  cbn -[Lodash.map].
  now rewrite (map_first_failure _ e x post pre before failing).
Qed.

End Arrays.

(** ** What [object] and [dictionary] return *)

Lemma assign_fresh {A : Type} (props : list (string * A)) key x :
  ~ In key (keys props) -> assign props key x = (props ++ [(key, x)])%list.
Proof.
  induction props as [|[k y] rest IH]; simpl; [reflexivity|].
  intros H. destruct (String.eqb k key) eqn:E.
  - apply String.eqb_eq in E. tauto.
  - rewrite IH by tauto. reflexivity.
Qed.

Lemma lookup_NoDup {A : Type} (props : list (string * A)) k x :
  NoDup (keys props) -> In (k, x) props -> lookup k props = Some x.
Proof.
  induction props as [|[k' y] rest IH]; simpl; [tauto|].
  intros Hnodup Hin. inversion Hnodup as [|? ? Hfresh Hrest]; subst.
  destruct Hin as [[= -> ->] | Hin].
  - now rewrite String.eqb_refl.
  - destruct (String.eqb k' k) eqn:E; [|now apply IH].
    apply String.eqb_eq in E. subst k'. exfalso. apply Hfresh.
    change k with (fst (k, x)). now apply in_map.
Qed.

Lemma keys_decoded {A B : Type} (R : A -> B -> Prop)
    (props : list (string * A)) (decoded : list (string * B)) :
  Forall2 (fun field out => fst out = fst field /\ R (snd field) (snd out))
    props decoded ->
  keys decoded = keys props.
Proof.
  induction 1 as [|field out props decoded [Hk _] _ IH]; simpl;
    [reflexivity|].
  now rewrite Hk, IH.
Qed.

(** The decoded entries, seen from the whole object: each is what the
    step of the loop makes of its key. *)
Lemma decoded_by_key {A : Type} (R : A -> value -> Prop)
    (all : list (string * A)) :
  NoDup (keys all) ->
  forall props decoded,
    incl props all ->
    Forall2 (fun field out => fst out = fst field /\ R (snd field) (snd out))
      props decoded ->
    Forall (fun out => exists a, lookup (fst out) all = Some a /\ R a (snd out))
      decoded.
Proof.
  intros Hnodup props decoded Hincl Hall.
  induction Hall as [|[k a] [k' y] props decoded [Hk Hr] _ IH];
    constructor.
  - simpl in *. subst k'. exists a. split; [|exact Hr].
    apply lookup_NoDup; [exact Hnodup|]. apply Hincl. now left.
  - apply IH. intros entry Hin. apply Hincl. now right.
Qed.

Section Results.
Context {host : Host}.


Lemma objectLoop_all_return (props : Decode.ObjectDecoder) obj :
  forall decoded result,
    NoDup (keys decoded) ->
    ~ In "__proto__" (keys decoded) ->
    (forall k, In k (keys (properties result)) -> ~ In k (keys decoded)) ->
    Forall (fun out => exists decoder : Decode.Decoder,
                lookup (fst out) props = Some decoder
                /\ decoder obj = Return (snd out))
      decoded ->
    Decode.objectLoop props obj (keys decoded) result
    = Decode.Done {| prototypeOf := prototypeOf result;
                     properties := (properties result ++ decoded)%list |}.
Proof.
  induction decoded as [|[k y] decoded IH];
    intros result Hnodup Hproto Hfresh Hall; simpl.
  - rewrite app_nil_r. now destruct result.
  - inversion Hnodup as [|? ? Hk Hrest]; subst.
    inversion Hall as [|? ? [decoder [Hd Hy]] Hall']; subst. simpl in Hd, Hy.
    unfold Decode.property. rewrite Hd. simpl bind. rewrite Hy.
    rewrite setProperty_data by (intros ->; apply Hproto; now left).
    rewrite IH; try assumption.
    + simpl. rewrite assign_fresh.
      * now rewrite <- app_assoc.
      * intros Hin. apply (Hfresh k Hin). now left.
    + intros Hin. apply Hproto. now right.
    + simpl. intros k' Hin. rewrite assign_fresh in Hin.
      * rewrite keys_app in Hin.
        apply in_app_or in Hin. destruct Hin as [Hin | [<- | []]].
        -- intros Hd'. apply (Hfresh k' Hin). now right.
        -- exact Hk.
      * intros Hin'. apply (Hfresh k Hin'). now left.
Qed.

(** X3.  When every field decoder returns on the input, and no field is
    named [__proto__], [object] returns an object with the fields of
    [props], in the order in which [Object.keys(props)] lists them, each
    holding what its decoder returned on the whole input; nothing of the
    input is copied unless a field decoder returns it.  (The names of the
    fields are distinct, as the keys of an object are.) *)
Theorem object_returns_declared_fields
    (props : Decode.ObjectDecoder) (obj : value)
    (decoded : list (string * value))
    (distinct : NoDup (keys props))
    (data : ~ In "__proto__" (keys props))
    (each : Forall2 (fun field out =>
                       fst out = fst field
                       /\ Decode.decode (snd field) obj = Return (snd out))
              props decoded) :
  Decode.object props obj = Return (VObject decoded).
Proof.
  pose proof (keys_decoded (fun d y => Decode.decode d obj = Return y)
                _ _ each) as Hkeys.
  pose proof (decoded_by_key (fun d y => Decode.decode d obj = Return y)
                props distinct props decoded (incl_refl _) each) as Hall.
  cbn -[Decode.objectLoop keys ToString append getProp Lodash.isNil].
  rewrite <- Hkeys.
  rewrite (objectLoop_all_return props obj decoded emptyObject);
    simpl; auto; now rewrite Hkeys.
Qed.






End Results.

(** ** [enumeration] *)

Section Enumerations.
Context {host : Host}.

Lemma includes_In options s : Lodash.includes options s = true <-> In s options.
Proof.
  unfold Lodash.includes. rewrite existsb_exists. split.
  - intros [s' [Hin Heq]]. apply String.eqb_eq in Heq. now subst.
  - intros Hin. exists s. split; [exact Hin | apply String.eqb_refl].
Qed.

(** X7.  [enumeration(coerce, options)] hands a string that is one of the
    options to [coerce] and returns or throws what [coerce] does.  On a
    string that is none of them, and on a value that is no string and
    has a text, it raises a [DecodeError] without [inner_error] whose
    plain message is the expectation, "to be one of [<options>]",
    followed by " but got [<the value as text>]".  On a value that has no
    text it throws what turning the value into text throws. *)
Theorem enumeration_members_only
    (coerce : string -> outcome value) (options : list string)
    (s : string) (obj : value) :
  (In s options ->
   Decode.enumeration coerce options (VString s) = coerce s)
  /\ (~ In s options ->
      Decode.enumeration coerce options (VString s)
      = Throw (VDecodeError
                 (Decode.expected (Decode.enumeration coerce options)
                    ++ " but got [" ++ s ++ "]")
                 VNull))
  /\ (Lodash.isString obj = false ->
      (forall text,
          ToString obj = Return text ->
          Decode.enumeration coerce options obj
          = Throw (VDecodeError
                     (Decode.expected (Decode.enumeration coerce options)
                        ++ " but got [" ++ text ++ "]")
                     VNull))
      /\ (forall e,
             ToString obj = Throw e ->
             Decode.enumeration coerce options obj = Throw e))
  /\ Decode.expectation (Decode.enumeration coerce options)
     = Some ("to be one of [" ++ String.concat ", " options ++ "]").
Proof.
  split; [|split; [|split]]; [| | |reflexivity].
  - intros Hin. apply includes_In in Hin.
    cbn -[ToString append Lodash.includes]. now rewrite Hin.
  - intros Hout.
    destruct (Lodash.includes options s) eqn:Hin.
    + apply includes_In in Hin. contradiction.
    + cbn -[append Lodash.includes]. now rewrite Hin.
  - intros Hobj.
    split; intros shown Hshown;
      (destruct obj; [| | | |discriminate Hobj| | | | | | |]);
      cbn -[ToString append]; rewrite Hshown; reflexivity.
Qed.

End Enumerations.

(** ** Absent inputs and defaults *)

Section Absent.
Context {host : Host}.

(** X8.  On [null] and on [undefined] there is no property to find:
    [required] raises its "there was none" [DecodeError] and [optional]
    returns [null], for every path and without calling the decoder;
    neither lets the [TypeError] of a property read on [null] arise. *)
Theorem null_input_has_no_property
    (path : string) (decoder : Decode.Decoder) (obj : value)
    (nullish : Lodash.isNil obj = true) :
  Decode.required path decoder obj
  = Throw (VDecodeError
             ("Expected the value at [" ++ path ++ "] to "
                ++ Decode.expected decoder ++ " but there was none.")
             VNull)
  /\ Decode.optional path decoder obj = Return VNull.
Proof.
  assert (Hhas : Lodash.has obj path = false).
  { unfold Lodash.has. now rewrite nullish. }
  split.
  - cbn -[Lodash.has append]. now rewrite Hhas.
  - rewrite optional_unfold. now rewrite Hhas.
Qed.

Lemma optional_null path decoder obj :
  hasOwnProperty obj path = false \/ get obj path = VUndefined
  \/ get obj path = VNull ->
  Decode.optional path decoder obj = Return VNull.
Proof.
  intros H. rewrite optional_unfold.
  destruct (Lodash.has obj path) eqn:Hhas; [|reflexivity].
  simpl negb. cbv iota.
  rewrite getProp_get by now apply has_not_nullish with path.
  simpl bind.
  destruct H as [Hown | [Hget | Hget]].
  - now rewrite (has_deep_get _ _ Hhas Hown).
  - now rewrite Hget.
  - now rewrite Hget.
Qed.

(** X9.  [withDefault(dv, optional(p, d))] returns [dv] when the input
    has no own property [p], and when the property holds [undefined] or
    [null]; [d] is not called. *)
Theorem withDefault_of_optional_fills_the_gap
    (default_value : value) (path : string) (decoder : Decode.Decoder)
    (obj : value)
    (gap : hasOwnProperty obj path = false \/ get obj path = VUndefined
           \/ get obj path = VNull) :
  Decode.withDefault default_value (Decode.optional path decoder) obj
  = Return default_value.
Proof.
  cbn -[Decode.optional].
  change (Decode.decode (Decode.optional path decoder) obj)
    with (Decode.optional path decoder obj).
  now rewrite (optional_null path decoder obj gap).
Qed.

(** X10.  With a default that is none of [null], [undefined] and [NaN],
    [withDefault] never returns [null], [undefined] or [NaN]. *)
Theorem withDefault_returns_a_defined_value
    (default_value : value) (decoder : Decode.Decoder) (obj r : value)
    (defined : Lodash.isNil default_value = false)
    (a_number : isNaN default_value = false)
    (returned : Decode.withDefault default_value decoder obj = Return r) :
  Lodash.isNil r = false /\ isNaN r = false.
Proof.
  simpl in returned.
  destruct (Decode.decode decoder obj) as [x|e]; [|discriminate].
  simpl in returned. injection returned as <-.
  destruct x as [| | |[]| | | | | | | |]; simpl; auto.
Qed.

(** X11.  When the property is there, holds neither [null] nor
    [undefined], and [d] raises a [DecodeError] on its value,
    [optional(p, d)] raises the [DecodeError] of [nullable(d)]: its plain
    message describes the value and does not name the path, and its
    [inner_error] is the failure of [d]. *)
Theorem optional_failure_does_not_name_the_path
    (path : string) (decoder : Decode.Decoder) (obj : value)
    (text : string) (inner : value)
    (present : hasOwnProperty obj path = true)
    (not_undefined : get obj path <> VUndefined)
    (not_null : get obj path <> VNull)
    (failing : decoder (get obj path) = Throw (VDecodeError text inner)) :
  Decode.optional path decoder obj
  = Throw (VDecodeError
             ("Expected the value to be null or " ++ Decode.expected decoder
                ++ " but got " ++ Decode.actualValueDescription (get obj path)
                ++ ". " ++ text)
             (VDecodeError text inner)).
Proof.
  rewrite optional_unfold. rewrite has_own by assumption.
  rewrite getProp_get by now apply hasOwnProperty_not_nullish with path.
  simpl negb. unfold bind. cbv beta iota.
  destruct (Lodash.isUndefined (get obj path)) eqn:Hu.
  { destruct (get obj path); try discriminate Hu. congruence. }
  rewrite nullable_not_null by assumption. rewrite failing.
  cbn -[JS.or ToString append Decode.actualValueDescription].
  rewrite plain_message_or_empty. reflexivity.
Qed.

End Absent.

(** ** Chains of failures *)

Section Chains.
Context {host : Host}.

Lemma required_wraps path (decoder : Decode.Decoder) obj text inner :
  hasOwnProperty obj path = true ->
  decoder (get obj path) = Throw (VDecodeError text inner) ->
  Decode.required path decoder obj
  = Throw (VDecodeError
             ("Expected the value at [" ++ path ++ "] to "
                ++ Decode.expected decoder ++ ". " ++ text)
             (VDecodeError text inner)).
Proof.
  intros Hown He. cbn -[Lodash.has].
  rewrite has_own by assumption.
  rewrite getProp_get by now apply hasOwnProperty_not_nullish with path.
  cbn -[append]. rewrite He. cbn -[JS.or ToString append].
  rewrite plain_message_or_empty. reflexivity.
Qed.

Lemma required_none path (decoder : Decode.Decoder) obj :
  hasOwnProperty obj path = false -> Lodash.isKey path obj = true ->
  Decode.required path decoder obj
  = Throw (VDecodeError
             ("Expected the value at [" ++ path ++ "] to "
                ++ Decode.expected decoder ++ " but there was none.")
             VNull).
Proof.
  intros Hown Hkey. cbn -[Lodash.has].
  rewrite has_key by assumption. now rewrite Hown.
Qed.

(** X12.  A field [k: required(p, d)] of an [object], the fields before
    it returning: when the property is there and [d] raises a
    [DecodeError], [object] reports the plain message of [d] itself after
    "Expected the value to <d.expectation> at [<p>]. ", leaving out the
    sentence [required] wrapped it in; when the property is missing it
    reports the "there was none" sentence of [required]. *)
Theorem object_reports_the_failure_under_required
    (pre : Decode.ObjectDecoder) (k path : string)
    (decoder : Decode.Decoder) (post : Decode.ObjectDecoder) (obj : value)
    (first : ~ In k (keys pre))
    (before : Forall (fun field => returns obj (snd field)) pre) :
  (forall text inner,
      hasOwnProperty obj path = true ->
      decoder (get obj path) = Throw (VDecodeError text inner) ->
      Decode.object (pre ++ (k, Decode.required path decoder) :: post)%list obj
      = Throw (VDecodeError
                 ("Expected the value to "
                    ++ (Decode.expected decoder ++ " at [" ++ path ++ "]")
                    ++ ". " ++ text)
                 VNull))
  /\ (hasOwnProperty obj path = false -> Lodash.isKey path obj = true ->
      Decode.object (pre ++ (k, Decode.required path decoder) :: post)%list obj
      = Throw (VDecodeError
                 ("Expected the value to "
                    ++ (Decode.expected decoder ++ " at [" ++ path ++ "]")
                    ++ ". "
                    ++ ("Expected the value at [" ++ path ++ "] to "
                          ++ Decode.expected decoder ++ " but there was none."))
                 VNull)).
Proof.
  split.
  - intros text inner Hown He.
    now rewrite (object_first_failure pre k _ post obj _ (Return text)
                   first before
                   (required_wraps path decoder obj text inner Hown He)).
  - intros Hown Hkey.
    now rewrite (object_first_failure pre k _ post obj _ (Return _)
                   first before
                   (required_none path decoder obj Hown Hkey) eq_refl
                   eq_refl).
Qed.

(** X13.  [required] and [nullable] keep the chain of failures: the
    [DecodeError] they raise around a [DecodeError] of the decoder has
    the same innermost failure, so that walking [inner_error] from the
    outside ends at the first cause. *)
Theorem wrapping_keeps_the_innermost_failure
    (path : string) (decoder : Decode.Decoder) (obj : value)
    (text : string) (inner outer : value) :
  (hasOwnProperty obj path = true ->
   decoder (get obj path) = Throw (VDecodeError text inner) ->
   Decode.required path decoder obj = Throw outer ->
   innermost outer = innermost (VDecodeError text inner))
  /\ (obj <> VNull ->
      decoder obj = Throw (VDecodeError text inner) ->
      Decode.nullable decoder obj = Throw outer ->
      innermost outer = innermost (VDecodeError text inner)).
Proof.
  split.
  - intros Hown He Houter.
    rewrite (required_wraps path decoder obj text inner Hown He) in Houter.
    injection Houter as <-. reflexivity.
  - intros Hobj He Houter.
    rewrite nullable_not_null in Houter by assumption.
    rewrite He in Houter. cbn -[JS.or ToString append] in Houter.
    rewrite plain_message_or_empty in Houter. simpl bind in Houter.
    injection Houter as <-. reflexivity.
Qed.

End Chains.

(** ** Checks of the container, and constants *)

Section Containers.
Context {host : Host}.

(** X14.  [array] raises its own [DecodeError] on every value that is no
    array, a plain object and a string included, and [dictionary] on
    every value that is no plain object, an array and [null] included;
    the element decoder is not called, and the failure has no
    [inner_error]. *)
Theorem containers_are_checked_first
    (decoder : Decode.Decoder) (obj : value) :
  (Lodash.isArray obj = false ->
   Decode.array decoder obj
   = Throw (VDecodeError
              ("Expected to " ++ Decode.expected (Decode.array decoder)
                 ++ " but got " ++ Decode.actualValueDescription obj ++ ".")
              VNull))
  /\ (Lodash.isPlainObject obj = false ->
      Decode.dictionary decoder obj
      = Throw (VDecodeError
                 ("Expected the value to "
                    ++ Decode.expected (Decode.dictionary decoder)
                    ++ " but got " ++ Decode.actualValueDescription obj ++ ".")
                 VNull)).
Proof.
  split; intros Hobj.
  - destruct obj; try reflexivity; discriminate Hobj.
  - cbn -[Lodash.isPlainObject append Decode.actualValueDescription].
    now rewrite Hobj.
Qed.

(** X15.  [required(p, hardcoded(x))] looks for the property and ignores
    its value: it returns [x] when the input has an own property [p],
    whatever it holds; when it has none it raises, and since the
    [expectation] of [hardcoded] is [null] the message reads "Expected
    the value at [<p>] to null but there was none.". *)
Theorem required_hardcoded_tests_presence
    (path : string) (x obj : value) :
  (hasOwnProperty obj path = true ->
   Decode.required path (Decode.hardcoded x) obj = Return x)
  /\ (hasOwnProperty obj path = false -> Lodash.isKey path obj = true ->
      Decode.required path (Decode.hardcoded x) obj
      = Throw (VDecodeError
                 ("Expected the value at [" ++ path
                    ++ "] to null but there was none.")
                 VNull)).
Proof.
  split.
  - intros Hown. cbn -[Lodash.has].
    rewrite has_own by assumption.
    now rewrite getProp_get by now apply hasOwnProperty_not_nullish with path.
  - intros Hown Hkey. cbn -[Lodash.has append].
    rewrite has_key by assumption. now rewrite Hown.
Qed.

End Containers.

(** ** The statements on the examples *)

#[local] Existing Instance v8.

(** The test suite: a valid object decodes to itself, and the two
    failures carry the messages the tests expect. *)
Lemma test_suite_messages :
  validObjectDecoder valid_object = Return valid_object
  /\ Decode.array Decode.number
       (VArray [VNumber (Int 1); VNumber (Int 2); VNumber (Int 3);
                VNumber (Int 4)])
     = Return (VArray [VNumber (Int 1); VNumber (Int 2); VNumber (Int 3);
                       VNumber (Int 4)])
  /\ match validObjectDecoder without_id with
     | Return _ => False
     | Throw e =>
         Decode.message e
         = VString "Decode Failure: Expected the value to be a number at [id]. Expected the value at [id] to be a number but there was none."
     end
  /\ match validObjectDecoder invalid_id with
     | Return _ => False
     | Throw e =>
         Decode.message e
         = VString "Decode Failure: Expected the value to be a number at [id]. Expected to be a number but got [invalid]."
     end.
Proof. repeat split. Qed.

Lemma object_reports_one_step_down_witness :
  ~ In "id" (keys [("name", Decode.required "name" Decode.str)])
  /\ (Forall (fun field => returns without_id (snd field))
        [("name", Decode.required "name" Decode.str)]
      /\ Decode.required "id" Decode.number without_id
         = Throw (VDecodeError
                    "Expected the value at [id] to be a number but there was none."
                    VNull)
      /\ validObjectDecoder without_id
         = Throw (VDecodeError
                    "Expected the value to be a number at [id]. Expected the value at [id] to be a number but there was none."
                    VNull))
  /\ (Forall (fun field => returns invalid_id (snd field))
        [("name", Decode.required "name" Decode.str)]
      /\ Decode.required "id" Decode.number invalid_id
         = Throw (VDecodeError
                    "Expected the value at [id] to be a number. Expected to be a number but got [invalid]."
                    (VDecodeError "Expected to be a number but got [invalid]."
                       VNull))
      /\ validObjectDecoder invalid_id
         = Throw (VDecodeError
                    "Expected the value to be a number at [id]. Expected to be a number but got [invalid]."
                    VNull))
  /\ (idOf VUndefined
      = Throw (VNativeError "TypeError"
                 "Cannot read properties of undefined (reading 'id')")
      /\ ToString VUndefined = Return "undefined"
      /\ Decode.object [("id", idOf)] VUndefined
         = Throw (VDecodeError "Expected the value to have an id. undefined"
                    VNull))
  /\ (throwsNull five = Throw VNull
      /\ Decode.object [("a", throwsNull)] five
         = Throw (VNativeError "TypeError"
                    "Cannot read properties of null (reading 'inner_error')")).
Proof.
  assert (first : ~ In "id" (keys [("name", Decode.required "name" Decode.str)])).
  { simpl. intros [H | []]. discriminate. }
  assert (before : forall obj,
             Decode.required "name" Decode.str obj = Return (VString "tester") ->
             Forall (fun field => returns obj (snd field))
               [("name", Decode.required "name" Decode.str)]).
  { intros obj H. repeat constructor. now exists (VString "tester"). }
  split; [exact first|]. split; [|split; [|split]].
  - split; [exact (before without_id eq_refl)|]. split; [reflexivity|].
    exact (proj1 (object_reports_one_step_down
                    [("name", Decode.required "name" Decode.str)] "id"
                    (Decode.required "id" Decode.number) [] without_id
                    (VDecodeError
                       "Expected the value at [id] to be a number but there was none."
                       VNull)
                    first (before without_id eq_refl) eq_refl)
             _ eq_refl).
  - split; [exact (before invalid_id eq_refl)|]. split; [reflexivity|].
    exact (proj1 (proj2 (object_reports_one_step_down
                           [("name", Decode.required "name" Decode.str)] "id"
                           (Decode.required "id" Decode.number) [] invalid_id
                           (VDecodeError
                              "Expected the value at [id] to be a number. Expected to be a number but got [invalid]."
                              (VDecodeError
                                 "Expected to be a number but got [invalid]."
                                 VNull))
                           first (before invalid_id eq_refl) eq_refl))
             _ "Expected to be a number but got [invalid]." VNull eq_refl).
  - split; [reflexivity|]. split; [reflexivity|].
    exact (proj1 (proj2 (proj2 (object_reports_one_step_down
                                  [] "id" idOf [] VUndefined
                                  (VNativeError "TypeError"
                                     "Cannot read properties of undefined (reading 'id')")
                                  (fun H => H) (Forall_nil _) eq_refl)))
             "undefined" eq_refl eq_refl).
  - split; [reflexivity|].
    exact (proj2 (proj2 (proj2 (proj2 (object_reports_one_step_down
                                         [] "a" throwsNull [] five VNull
                                         (fun H => H) (Forall_nil _)
                                         eq_refl))))
             eq_refl).
Defined.

(** C1 as worded fails on a chain of two inner errors: the message ends
    with the plain message of [nullable]'s failure, which is the
    [inner_error] of [required]'s, and not with that of [str]'s, the
    innermost. *)
Lemma object_stops_above_the_innermost_failure :
  nullableField five
  = Throw (VDecodeError
             "Expected the value at [a] to be null or be a string. Expected the value to be null or be a string but got [5]. Expected to be a string but got [5]."
             (VDecodeError
                "Expected the value to be null or be a string but got [5]. Expected to be a string but got [5]."
                (VDecodeError "Expected to be a string but got [5]." VNull)))
  /\ Decode.object [("a", nullableField)] five
     = Throw (VDecodeError
                "Expected the value to be null or be a string at [a]. Expected the value to be null or be a string but got [5]. Expected to be a string but got [5]."
                VNull)
  /\ ~ reports_innermost [("a", nullableField)] five.
Proof.
  split; [reflexivity|]. split; [reflexivity|].
  intros claim.
  destruct (claim [] "a" nullableField [] _ eq_refl (fun H => H)
              (Forall_nil _) eq_refl eq_refl) as [text [inner [Htext H]]].
  vm_compute in Htext. injection Htext as <-.
  vm_compute in H. discriminate H.
Qed.


(** The hypothesis on the input is needed for [enumeration]: an object
    whose own [toString] is no function has no text, and the [TypeError]
    of printing it comes out of the decoder. *)
Lemma enumeration_throws_on_a_value_without_text :
  Decode.enumeration (fun s => Return (VString s)) ["a"; "b"]
    (VObject [("toString", VNumber (Int 0))])
  = Throw (VNativeError "TypeError" "Cannot convert object to primitive value")
  /\ ~ Printable (VObject [("toString", VNumber (Int 0))]).
Proof.
  split; [reflexivity|].
  intros claim. destruct (claim _ (part_whole _)) as [text H].
  discriminate H.
Qed.


(** C3 as worded fails on an inherited property: every object has a
    [toString], from [Object.prototype], and [required] finds none. *)
Lemma required_overlooks_inherited_properties :
  inOperator "toString" (VObject []) = true
  /\ hasOwnProperty (VObject []) "toString" = false
  /\ Decode.required "toString" Decode.withoutValidation (VObject [])
     = Throw (VDecodeError
                "Expected the value at [toString] to be any value but there was none."
                VNull)
  /\ ~ required_by_any_property "toString" Decode.withoutValidation
         (VObject []).
Proof.
  repeat split.
  intros [_ claim]. destruct (claim eq_refl) as [returned _].
  specialize (returned _ eq_refl). discriminate returned.
Qed.

(** A path with a dot is followed into the object, so [_.has] holds, and
    the decoder is then called on [obj['a.b']], which is [undefined]. *)
Lemma required_follows_a_dotted_path :
  hasOwnProperty (VObject [("a", VObject [("b", VString "x")])]) "a.b" = false
  /\ Decode.required "a.b" Decode.str
       (VObject [("a", VObject [("b", VString "x")])])
     = Throw (VDecodeError
                "Expected the value at [a.b] to be a string. Expected to be a string but got undefined."
                (VDecodeError "Expected to be a string but got undefined."
                   VNull)).
Proof. split; reflexivity. Qed.

(** [optional] judges presence by the own properties too. *)
Lemma optional_overlooks_inherited_properties :
  inOperator "toString" (VObject []) = true
  /\ Decode.optional "toString" Decode.withoutValidation (VObject [])
     = Return VNull.
Proof. split; reflexivity. Qed.

Lemma required_own_property_witness :
  (hasOwnProperty without_id "id" = false
   /\ Lodash.isKey "id" without_id = true
   /\ Decode.required "id" Decode.number without_id
      = Throw (VDecodeError
                 "Expected the value at [id] to be a number but there was none."
                 VNull))
  /\ (hasOwnProperty valid_object "id" = true
      /\ Decode.required "id" Decode.number valid_object
         = Return (VNumber (Int 42)))
  /\ (hasOwnProperty invalid_id "id" = true
      /\ Decode.required "id" Decode.number invalid_id
         = Throw (VDecodeError
                    "Expected the value at [id] to be a number. Expected to be a number but got [invalid]."
                    (VDecodeError "Expected to be a number but got [invalid]."
                       VNull))).
Proof.
  split; [|split].
  - split; [reflexivity|]. split; [reflexivity|].
    exact (proj1 (required_own_property "id" Decode.number without_id)
             eq_refl eq_refl).
  - split; [reflexivity|].
    exact (proj1 (proj2 (required_own_property "id" Decode.number valid_object))
             (VNumber (Int 42)) eq_refl eq_refl).
  - split; [reflexivity|].
    exact (proj2 (proj2 (required_own_property "id" Decode.number invalid_id))
             "Expected to be a number but got [invalid]." VNull
             eq_refl eq_refl).
Defined.


Lemma nullable_null_or_decoded_witness :
  (VString "x" <> VNull
   /\ Decode.nullable Decode.str (VString "x") = Return (VString "x"))
  /\ (VNumber (Int 5) <> VNull
      /\ Decode.nullable Decode.str (VNumber (Int 5))
         = Throw (VDecodeError
                    "Expected the value to be null or be a string but got [5]. Expected to be a string but got [5]."
                    (VDecodeError "Expected to be a string but got [5]."
                       VNull)))
  /\ (VUndefined <> VNull
      /\ idOf VUndefined
         = Throw (VNativeError "TypeError"
                    "Cannot read properties of undefined (reading 'id')")
      /\ Decode.nullable idOf VUndefined
         = Throw (VDecodeError
                    "Expected the value to be null or have an id but got undefined. "
                    (VNativeError "TypeError"
                       "Cannot read properties of undefined (reading 'id')")))
  /\ (throwsNull five = Throw VNull
      /\ Decode.nullable throwsNull five
         = Throw (VNativeError "TypeError"
                    "Cannot read properties of null (reading 'plain_message')")).
Proof.
  split; [|split; [|split]].
  - split; [discriminate|].
    refine (proj1 (proj2 (nullable_null_or_decoded Decode.str (VString "x")))
              (VString "x") _ eq_refl).
    discriminate.
  - split; [discriminate|].
    refine (proj1 (proj2 (proj2
              (nullable_null_or_decoded Decode.str (VNumber (Int 5)))))
              "Expected to be a string but got [5]." VNull _ eq_refl).
    discriminate.
  - split; [discriminate|]. split; [reflexivity|].
    refine (proj1 (proj2 (proj2 (proj2
              (nullable_null_or_decoded idOf VUndefined))))
              (VNativeError "TypeError"
                 "Cannot read properties of undefined (reading 'id')")
              EmptyString _ eq_refl eq_refl eq_refl).
    discriminate.
  - split; [reflexivity|].
    refine (proj1 (proj2 (proj2 (proj2 (proj2 (proj2
              (nullable_null_or_decoded throwsNull five))))))
              VNull _ eq_refl eq_refl).
    discriminate.
Defined.

Lemma optional_absent_or_nullable_witness :
  (hasOwnProperty without_id "id" = false
   /\ Decode.optional "id" Decode.number without_id = Return VNull)
  /\ (get (VObject [("id", VUndefined)]) "id" = VUndefined
      /\ Decode.optional "id" Decode.number (VObject [("id", VUndefined)])
         = Return VNull)
  /\ (hasOwnProperty invalid_id "id" = true
      /\ get invalid_id "id" <> VUndefined
      /\ Decode.optional "id" Decode.number invalid_id
         = Decode.nullable Decode.number (VString "invalid")).
Proof.
  split; [|split].
  - split; [reflexivity|].
    exact (proj1 (optional_absent_or_nullable "id" Decode.number without_id)
             eq_refl).
  - split; [reflexivity|].
    exact (proj1 (proj2 (optional_absent_or_nullable "id" Decode.number
                           (VObject [("id", VUndefined)])))
             eq_refl).
  - split; [reflexivity|]. split; [discriminate|].
    refine (proj2 (proj2 (optional_absent_or_nullable "id" Decode.number
                            invalid_id))
              eq_refl _).
    discriminate.
Defined.

(** C7 as worded fails on [NaN]: [number] returns it, it is neither
    absent nor [null], and [withDefault] puts the default in its place. *)
Lemma withDefault_replaces_NaN :
  Decode.number (VNumber NaN) = Return (VNumber NaN)
  /\ Lodash.isNil (VNumber NaN) = false
  /\ Decode.withDefault (VNumber (Int 7)) Decode.number (VNumber NaN)
     = Return (VNumber (Int 7))
  /\ ~ default_for_nil_only (VNumber (Int 7)) Decode.number (VNumber NaN).
Proof.
  repeat split.
  intros claim. specialize (claim _ eq_refl). discriminate claim.
Qed.

Lemma withDefault_replaces_nil_and_NaN_witness :
  (Decode.str (VNumber (Int 5))
   = Throw (VDecodeError "Expected to be a string but got [5]." VNull)
   /\ Decode.withDefault (VString "none") Decode.str (VNumber (Int 5))
      = Throw (VDecodeError "Expected to be a string but got [5]." VNull))
  /\ (Decode.optional "id" Decode.number without_id = Return VNull
      /\ Decode.withDefault (VNumber (Int 0))
           (Decode.optional "id" Decode.number) without_id
         = Return (VNumber (Int 0)))
  /\ (Decode.optional "id" Decode.number valid_object
      = Return (VNumber (Int 42))
      /\ Decode.withDefault (VNumber (Int 0))
           (Decode.optional "id" Decode.number) valid_object
         = Return (VNumber (Int 42))).
Proof.
  split; [|split].
  - split; [reflexivity|].
    exact (proj1 (withDefault_replaces_nil_and_NaN (VString "none")
                    Decode.str (VNumber (Int 5)))
             _ eq_refl).
  - split; [reflexivity|].
    exact (proj1 (proj2 (withDefault_replaces_nil_and_NaN (VNumber (Int 0))
                           (Decode.optional "id" Decode.number) without_id))
             VNull eq_refl).
  - split; [reflexivity|].
    exact (proj1 (proj2 (withDefault_replaces_nil_and_NaN (VNumber (Int 0))
                           (Decode.optional "id" Decode.number) valid_object))
             (VNumber (Int 42)) eq_refl).
Defined.


Lemma primitives_pass_through_witness :
  Lodash.isObject valid_object = true
  /\ Decode.str (VString "42") = Return (VString "42")
  /\ Decode.number (VNumber (Int 42)) = Return (VNumber (Int 42))
  /\ Decode.bool (VBool true) = Return (VBool true)
  /\ Decode.anyObject valid_object = Return valid_object
  /\ Decode.number (VString "42")
     = Throw (VDecodeError "Expected to be a number but got [42]." VNull).
Proof.
  split; [reflexivity|].
  pose proof (primitives_pass_through "42" (Int 42) true valid_object eq_refl)
    as [Hstr [Hnumber [Hbool [Hobject [Hcoerce _]]]]].
  repeat split; assumption.
Defined.

(** *** The further properties on examples *)

Lemma array_returns_decoded_elements_witness :
  Forall2 (fun x y => Decode.number x = Return y)
    [VNumber (Int 1); VNumber (Int 2); VNumber (Int 3); VNumber (Int 4)]
    [VNumber (Int 1); VNumber (Int 2); VNumber (Int 3); VNumber (Int 4)]
  /\ Decode.array Decode.number
       (VArray [VNumber (Int 1); VNumber (Int 2); VNumber (Int 3);
                VNumber (Int 4)])
     = Return (VArray [VNumber (Int 1); VNumber (Int 2); VNumber (Int 3);
                       VNumber (Int 4)])
  /\ List.length
       [VNumber (Int 1); VNumber (Int 2); VNumber (Int 3); VNumber (Int 4)]
     = List.length
         [VNumber (Int 1); VNumber (Int 2); VNumber (Int 3); VNumber (Int 4)].
Proof.
  assert (each : Forall2 (fun x y => Decode.number x = Return y)
                   [VNumber (Int 1); VNumber (Int 2); VNumber (Int 3);
                    VNumber (Int 4)]
                   [VNumber (Int 1); VNumber (Int 2); VNumber (Int 3);
                    VNumber (Int 4)]).
  { repeat constructor. }
  split; [exact each|].
  exact (array_returns_decoded_elements Decode.number _ _ each).
Defined.

Lemma array_first_failure_unwrapped_witness :
  Forall (fun x' => returns x' Decode.number) [VNumber (Int 1)]
  /\ Decode.number (VString "x")
     = Throw (VDecodeError "Expected to be a number but got [x]." VNull)
  /\ Decode.array Decode.number
       (VArray [VNumber (Int 1); VString "x"; VBool true])
     = Throw (VDecodeError "Expected to be a number but got [x]." VNull).
Proof.
  assert (before : Forall (fun x' => returns x' Decode.number)
                     [VNumber (Int 1)]).
  { repeat constructor. now exists (VNumber (Int 1)). }
  split; [exact before|]. split; [reflexivity|].
  exact (array_first_failure_unwrapped Decode.number [VNumber (Int 1)]
           (VString "x") [VBool true] _ before eq_refl).
Defined.

Lemma object_returns_declared_fields_witness :
  NoDup (keys [("name", Decode.required "name" Decode.str);
               ("id", Decode.required "id" Decode.number)])
  /\ ~ In "__proto__" (keys [("name", Decode.required "name" Decode.str);
                             ("id", Decode.required "id" Decode.number)])
  /\ validObjectDecoder
       (VObject [("extra", VBool true); ("id", VNumber (Int 42));
                 ("name", VString "tester")])
     = Return valid_object.
Proof.
  assert (distinct : NoDup (keys [("name", Decode.required "name" Decode.str);
                                  ("id", Decode.required "id" Decode.number)])).
  { simpl. repeat constructor; simpl; intuition discriminate. }
  assert (data : ~ In "__proto__"
                      (keys [("name", Decode.required "name" Decode.str);
                             ("id", Decode.required "id" Decode.number)])).
  { simpl. intros [H | [H | []]]; discriminate H. }
  split; [exact distinct|]. split; [exact data|].
  refine (object_returns_declared_fields _ _
            [("name", VString "tester"); ("id", VNumber (Int 42))]
            distinct data _).
  repeat constructor.
Defined.



(** Without the hypothesis on the keys the copy differs: assigning to
    [__proto__] goes to the setter of [Object.prototype], which replaces
    the prototype of the result by an object or [null] and ignores any
    other value; the result has no such key of its own. *)
Lemma dictionary_loses_the_key_of_the_prototype :
  Decode.dictionary Decode.withoutValidation
    (VObject [("__proto__", VNumber (Int 1)); ("a", VBool true)])
  = Return (VObject [("a", VBool true)])
  /\ Decode.dictionary Decode.withoutValidation
       (VObject [("__proto__", VNull); ("a", VBool true)])
     = Return (VCreated VNull [("a", VBool true)]).
Proof. split; reflexivity. Qed.


(** The one way for a chain to come out of [dictionary] and [object]: the
    decoder throws an object whose [plain_message] has a [toString] of
    its own, and that method throws the chain when the message is put
    together. *)
Lemma a_text_method_can_throw_a_chain :
  Decode.dictionary (host := throwing)
    (Decode.custom (fun _ => Throw messageWithMethod) "never")
    (VObject [("a", VNull)])
  = Throw (VDecodeError "thrown by toString" (VDecodeError "cause" VNull))
  /\ ToString (host := throwing) (VObject [("toString", VFunction "f" [])])
     = Throw (VDecodeError "thrown by toString" (VDecodeError "cause" VNull)).
Proof. split; reflexivity. Qed.

Lemma enumeration_members_only_witness :
  (In "a" ["a"; "b"]
   /\ Decode.enumeration (fun s => Return (VString s)) ["a"; "b"] (VString "a")
      = Return (VString "a"))
  /\ (~ In "c" ["a"; "b"]
      /\ Decode.enumeration (fun s => Return (VString s)) ["a"; "b"]
           (VString "c")
         = Throw (VDecodeError "to be one of [a, b] but got [c]" VNull))
  /\ (Lodash.isString (VNumber (Int 5)) = false
      /\ ToString (VNumber (Int 5)) = Return "5"
      /\ Decode.enumeration (fun s => Return (VString s)) ["a"; "b"]
           (VNumber (Int 5))
         = Throw (VDecodeError "to be one of [a, b] but got [5]" VNull))
  /\ (Lodash.isString (VObject [("toString", VNumber (Int 0))]) = false
      /\ ToString (VObject [("toString", VNumber (Int 0))])
         = Throw (VNativeError "TypeError"
                    "Cannot convert object to primitive value")
      /\ Decode.enumeration (fun s => Return (VString s)) ["a"; "b"]
           (VObject [("toString", VNumber (Int 0))])
         = Throw (VNativeError "TypeError"
                    "Cannot convert object to primitive value")).
Proof.
  assert (member : In "a" ["a"; "b"]) by now left.
  assert (stranger : ~ In "c" ["a"; "b"]).
  { simpl. intuition discriminate. }
  split; [|split; [|split]].
  - split; [exact member|].
    exact (proj1 (enumeration_members_only (fun s => Return (VString s))
                    ["a"; "b"] "a" VNull)
             member).
  - split; [exact stranger|].
    exact (proj1 (proj2 (enumeration_members_only
                           (fun s => Return (VString s)) ["a"; "b"] "c" VNull))
             stranger).
  - split; [reflexivity|]. split; [reflexivity|].
    exact (proj1 (proj1 (proj2 (proj2 (enumeration_members_only
                                         (fun s => Return (VString s))
                                         ["a"; "b"] "a" (VNumber (Int 5)))))
                    eq_refl)
             "5" eq_refl).
  - split; [reflexivity|]. split; [reflexivity|].
    exact (proj2 (proj1 (proj2 (proj2 (enumeration_members_only
                                         (fun s => Return (VString s))
                                         ["a"; "b"] "a"
                                         (VObject [("toString",
                                                    VNumber (Int 0))]))))
                    eq_refl)
             _ eq_refl).
Defined.

Lemma null_input_has_no_property_witness :
  Lodash.isNil VNull = true
  /\ Decode.required "id" Decode.number VNull
     = Throw (VDecodeError
                "Expected the value at [id] to be a number but there was none."
                VNull)
  /\ Decode.optional "id" Decode.number VNull = Return VNull.
Proof.
  split; [reflexivity|].
  exact (null_input_has_no_property "id" Decode.number VNull eq_refl).
Defined.

Lemma withDefault_of_optional_fills_the_gap_witness :
  hasOwnProperty without_id "id" = false
  /\ Decode.withDefault (VNumber (Int 0)) (Decode.optional "id" Decode.number)
       without_id
     = Return (VNumber (Int 0)).
Proof.
  split; [reflexivity|].
  exact (withDefault_of_optional_fills_the_gap (VNumber (Int 0)) "id"
           Decode.number without_id (or_introl eq_refl)).
Defined.

Lemma withDefault_returns_a_defined_value_witness :
  Lodash.isNil (VNumber (Int 0)) = false
  /\ isNaN (VNumber (Int 0)) = false
  /\ Decode.withDefault (VNumber (Int 0)) Decode.number (VNumber NaN)
     = Return (VNumber (Int 0))
  /\ Lodash.isNil (VNumber (Int 0)) = false
  /\ isNaN (VNumber (Int 0)) = false.
Proof.
  split; [reflexivity|]. split; [reflexivity|]. split; [reflexivity|].
  exact (withDefault_returns_a_defined_value (VNumber (Int 0)) Decode.number
           (VNumber NaN) (VNumber (Int 0)) eq_refl eq_refl eq_refl).
Defined.

Lemma optional_failure_does_not_name_the_path_witness :
  hasOwnProperty invalid_id "id" = true
  /\ get invalid_id "id" <> VUndefined
  /\ get invalid_id "id" <> VNull
  /\ Decode.number (get invalid_id "id")
     = Throw (VDecodeError "Expected to be a number but got [invalid]." VNull)
  /\ Decode.optional "id" Decode.number invalid_id
     = Throw (VDecodeError
                "Expected the value to be null or be a number but got [invalid]. Expected to be a number but got [invalid]."
                (VDecodeError "Expected to be a number but got [invalid]."
                   VNull)).
Proof.
  assert (not_undefined : get invalid_id "id" <> VUndefined) by discriminate.
  assert (not_null : get invalid_id "id" <> VNull) by discriminate.
  split; [reflexivity|]. split; [exact not_undefined|].
  split; [exact not_null|]. split; [reflexivity|].
  exact (optional_failure_does_not_name_the_path "id" Decode.number invalid_id
           "Expected to be a number but got [invalid]." VNull
           eq_refl not_undefined not_null eq_refl).
Defined.

Lemma object_reports_the_failure_under_required_witness :
  ~ In "id" (keys [("name", Decode.required "name" Decode.str)])
  /\ (Forall (fun field => returns invalid_id (snd field))
        [("name", Decode.required "name" Decode.str)]
      /\ hasOwnProperty invalid_id "id" = true
      /\ validObjectDecoder invalid_id
         = Throw (VDecodeError
                    "Expected the value to be a number at [id]. Expected to be a number but got [invalid]."
                    VNull))
  /\ (Forall (fun field => returns without_id (snd field))
        [("name", Decode.required "name" Decode.str)]
      /\ hasOwnProperty without_id "id" = false
      /\ Lodash.isKey "id" without_id = true
      /\ validObjectDecoder without_id
         = Throw (VDecodeError
                    "Expected the value to be a number at [id]. Expected the value at [id] to be a number but there was none."
                    VNull)).
Proof.
  assert (first : ~ In "id" (keys [("name", Decode.required "name" Decode.str)])).
  { simpl. intros [H | []]. discriminate. }
  assert (before : forall obj,
             Decode.required "name" Decode.str obj = Return (VString "tester") ->
             Forall (fun field => returns obj (snd field))
               [("name", Decode.required "name" Decode.str)]).
  { intros obj H. repeat constructor. now exists (VString "tester"). }
  split; [exact first|]. split.
  - split; [exact (before invalid_id eq_refl)|]. split; [reflexivity|].
    exact (proj1 (object_reports_the_failure_under_required
                    [("name", Decode.required "name" Decode.str)] "id" "id"
                    Decode.number [] invalid_id first
                    (before invalid_id eq_refl))
             "Expected to be a number but got [invalid]." VNull
             eq_refl eq_refl).
  - split; [exact (before without_id eq_refl)|].
    split; [reflexivity|]. split; [reflexivity|].
    exact (proj2 (object_reports_the_failure_under_required
                    [("name", Decode.required "name" Decode.str)] "id" "id"
                    Decode.number [] without_id first
                    (before without_id eq_refl))
             eq_refl eq_refl).
Defined.

Lemma wrapping_keeps_the_innermost_failure_witness :
  (hasOwnProperty five "a" = true
   /\ innermost
        (VDecodeError
           "Expected the value at [a] to be null or be a string. Expected the value to be null or be a string but got [5]. Expected to be a string but got [5]."
           (VDecodeError
              "Expected the value to be null or be a string but got [5]. Expected to be a string but got [5]."
              (VDecodeError "Expected to be a string but got [5]." VNull)))
      = VDecodeError "Expected to be a string but got [5]." VNull)
  /\ (VNumber (Int 5) <> VNull
      /\ innermost
           (VDecodeError
              "Expected the value to be null or be a string but got [5]. Expected to be a string but got [5]."
              (VDecodeError "Expected to be a string but got [5]." VNull))
         = VDecodeError "Expected to be a string but got [5]." VNull).
Proof.
  assert (not_null : VNumber (Int 5) <> VNull) by discriminate.
  split.
  - split; [reflexivity|].
    exact (proj1 (wrapping_keeps_the_innermost_failure "a"
                    (Decode.nullable Decode.str) five
                    "Expected the value to be null or be a string but got [5]. Expected to be a string but got [5]."
                    (VDecodeError "Expected to be a string but got [5]." VNull)
                    _)
             eq_refl eq_refl eq_refl).
  - split; [exact not_null|].
    exact (proj2 (wrapping_keeps_the_innermost_failure "a" Decode.str
                    (VNumber (Int 5))
                    "Expected to be a string but got [5]." VNull _)
             not_null eq_refl eq_refl).
Defined.

Lemma containers_are_checked_first_witness :
  (Lodash.isArray valid_object = false
   /\ Decode.array Decode.number valid_object
      = Throw (VDecodeError
                 "Expected to be an array where each element should be a number but got an object with the properties [name, id]."
                 VNull))
  /\ (Lodash.isPlainObject (VArray [VNumber (Int 1)]) = false
      /\ Decode.dictionary Decode.number (VArray [VNumber (Int 1)])
         = Throw (VDecodeError
                    "Expected the value to be a dictionary object where each value should be a number but got object."
                    VNull)).
Proof.
  split; (split; [reflexivity|]).
  - exact (proj1 (containers_are_checked_first Decode.number valid_object)
             eq_refl).
  - exact (proj2 (containers_are_checked_first Decode.number
                    (VArray [VNumber (Int 1)]))
             eq_refl).
Defined.

Lemma required_hardcoded_tests_presence_witness :
  (hasOwnProperty invalid_id "id" = true
   /\ Decode.required "id" (Decode.hardcoded (VBool true)) invalid_id
      = Return (VBool true))
  /\ (hasOwnProperty without_id "id" = false
      /\ Lodash.isKey "id" without_id = true
      /\ Decode.required "id" (Decode.hardcoded (VBool true)) without_id
         = Throw (VDecodeError
                    "Expected the value at [id] to null but there was none."
                    VNull)).
Proof.
  split.
  - split; [reflexivity|].
    exact (proj1 (required_hardcoded_tests_presence "id" (VBool true)
                    invalid_id)
             eq_refl).
  - split; [reflexivity|]. split; [reflexivity|].
    exact (proj2 (required_hardcoded_tests_presence "id" (VBool true)
                    without_id)
             eq_refl eq_refl).
Defined.
